(** * SecureShop storefront: the state core of [project.fewdl/js.for shope.js]

    The script keeps four pieces of module-level state ([currentUser],
    [users], [csrfToken], [cart]), persists JSON blobs in [localStorage],
    and reacts to DOM events.  This development embeds that state core and
    proves the properties the specification states about it.

    Modelling conventions.
    - JS numbers that the script handles are integers (prices, quantities,
      deltas, hashes); they are embedded as [Z] and the 32-bit conversions
      of [^] and [>>>] are written out.  Values beyond 2^53, where JS
      arithmetic rounds, are outside the model.
    - JS strings are sequences of code units; the model carries them as
      [string], i.e. the strings whose code units are below 256.  This range
      contains every character the script singles out (white space, the
      control ranges U+0000-U+001F and U+007F-U+009F, the ASCII letters).
    - The objects [users], [cart] and the per-user order mapping are used as
      dictionaries and embedded as [gmap string _] over their own
      properties.  Two things are therefore outside the model: keys that
      name members of [Object.prototype] (such as "constructor"), and the
      enumeration order of [Object.entries], which no statement below
      depends on.
    - [JSON.stringify], [JSON.parse], [crypto.getRandomValues],
      [Math.random], [Date.now] and the form's [checkValidity] belong to the
      platform.  The codec is a parameter (class [JSON], one instance per
      persisted blob, so a stored text that parses to a value of another
      shape than the blob's is outside the model); random draws, the clock
      and the validity verdict are inputs of the handler that uses them.
    - Rendering functions only write to the DOM and are left out, except
      for what they compute: the products [renderProducts] selects, the
      badge count of [updateCartCount] and [escapeHTML]; [alert] is kept as
      a log of the notices shown. *)

From Stdlib Require Import ZArith Ascii HexadecimalString.
From Ceres Require Import Ceres.
From stdpp Require Import gmap strings list fin_maps.

Open Scope Z_scope.

(** ** Strings *)

Module JsString.

Definition charCode (c : ascii) : Z := Z.of_N (N_of_ascii c).

Definition fromCharCode (n : Z) : ascii := ascii_of_N (Z.to_N n).

(** [WhiteSpace] and [LineTerminator] of ECMAScript, below 256:
    TAB, LF, VT, FF, CR, SP and NBSP. *)
Definition isWhiteSpace (c : ascii) : bool :=
  let n := charCode c in
  ((9 <=? n) && (n <=? 13)) || (n =? 32) || (n =? 160).

Fixpoint trimStart (s : string) : string :=
  match s with
  | EmptyString => EmptyString
  | String c s' => if isWhiteSpace c then trimStart s' else s
  end.

Fixpoint trimEnd (s : string) : string :=
  match s with
  | EmptyString => EmptyString
  | String c s' =>
      match trimEnd s' with
      | EmptyString => if isWhiteSpace c then EmptyString else String c EmptyString
      | r => String c r
      end
  end.

(** [String.prototype.trim] *)
Definition trim (s : string) : string := trimEnd (trimStart s).

(** Lower-case mapping of one code unit: A-Z, and the Latin-1 capitals
    U+00C0-U+00DE except the multiplication sign U+00D7. *)
Definition lowerChar (c : ascii) : ascii :=
  let n := charCode c in
  if ((65 <=? n) && (n <=? 90))
     || ((192 <=? n) && (n <=? 222) && negb (n =? 215))
  then fromCharCode (n + 32) else c.

(** [String.prototype.toLowerCase] *)
Fixpoint toLowerCase (s : string) : string :=
  match s with
  | EmptyString => EmptyString
  | String c s' => String (lowerChar c) (toLowerCase s')
  end.

(** The class [[\u0000-\u001F\u007F-\u009F]] of [sanitizeInput]. *)
Definition isControl (c : ascii) : bool :=
  let n := charCode c in
  (n <=? 31) || ((127 <=? n) && (n <=? 159)).

(** [str.replace(/[...]/g, "")] for a character class. *)
Fixpoint removeAll (cls : ascii -> bool) (s : string) : string :=
  match s with
  | EmptyString => EmptyString
  | String c s' => if cls c then removeAll cls s' else String c (removeAll cls s')
  end.

(** [Array.prototype.join("")] on an array of strings. *)
Definition join (l : list string) : string :=
  foldr String.append EmptyString l.

(** [Number.prototype.toString(16)] on an integer. *)
Definition toString16 (n : Z) : string :=
  let digits (m : Z) := NilZero.string_of_uint (N.to_hex_uint (Z.to_N m)) in
  if n <? 0 then String "-"%char (digits (- n)) else digits n.

End JsString.

Import JsString.

(** ** Number conversions *)

(** [ToInt32]: the signed 32-bit value congruent to [n]. *)
Definition toInt32 (n : Z) : Z := (n + 2 ^ 31) mod 2 ^ 32 - 2 ^ 31.

(** [ToUint32], the conversion behind [n >>> 0]. *)
Definition toUint32 (n : Z) : Z := n mod 2 ^ 32.

(** [a ^ b] *)
Definition bitXor (a b : Z) : Z := Z.lxor (toInt32 a) (toInt32 b).

(** ** ToBoolean *)

Class Truthy (A : Type) := truthy : A -> bool.

#[global] Instance Z_truthy : Truthy Z := fun n => negb (n =? 0).

#[global] Instance string_truthy : Truthy string :=
  fun s => match s with EmptyString => false | String _ _ => true end.

(** [null]/[undefined] is [None]; a present value converts by its own rule. *)
#[global] Instance option_truthy {A} `{Truthy A} : Truthy (option A) :=
  fun o => match o with Some a => truthy a | None => false end.

(** ** Hashing *)

(** The loop of [hashString]: [hash = (hash * 33) ^ str.charCodeAt(i)]. *)
Fixpoint hashLoop (hash : Z) (str : string) : Z :=
  match str with
  | EmptyString => hash
  | String c rest => hashLoop (bitXor (hash * 33) (charCode c)) rest
  end.

Definition hashString (str : string) : string :=
  toString16 (toUint32 (hashLoop 5381 str)).

(** ** Data model *)

Module Product.
Record t := mk { id : string; name : string; category : string; price : Z }.
End Product.

Definition PRODUCTS : list Product.t :=
  [ Product.mk "p1" "Wireless Headphones" "electronics" 3999;
    Product.mk "p2" "Mechanical Keyboard" "electronics" 5499;
    Product.mk "p3" "Smartwatch Classic" "electronics" 6999;
    Product.mk "p4" "Premium Hoodie" "fashion" 1999;
    Product.mk "p5" "Running Shoes" "fashion" 2999;
    Product.mk "p6" "Cotton T‑Shirt" "fashion" 899;
    Product.mk "p7" "Table Lamp" "home" 1299;
    Product.mk "p8" "Non‑stick Pan Set" "home" 2499;
    Product.mk "p9" "Wall Art Frame" "home" 799 ].

Module STORAGE_KEYS.
Definition USER : string := "secureShop.currentUser".
Definition USERS : string := "secureShop.users".
Definition CART : string := "secureShop.cart".
Definition ORDERS : string := "secureShop.orders".
End STORAGE_KEYS.

(** A record of [users]: [{ passwordHash }]. *)
Module User.
Record t := mk { passwordHash : string }.
End User.

(** An element of [cartItemsWithDetails()]:
    [{ ...product, qty, lineTotal }]. *)
Module CartItem.
Record t := mk {
  id : string; name : string; category : string; price : Z;
  qty : Z; lineTotal : Z }.
End CartItem.

(** An element of [order.items]: [{ id, name, qty, price }]. *)
Module OrderItem.
Record t := mk { id : string; name : string; qty : Z; price : Z }.
End OrderItem.

Module Shipping.
Record t := mk {
  name : string; address : string; city : string; zip : string;
  phone : string }.
End Shipping.

Module Order.
Record t := mk {
  id : Z; createdAt : Z; total : Z;
  items : list OrderItem.t; shipping : Shipping.t }.
End Order.

(** ** Completions and the platform's JSON codec *)

Inductive exn :=
| Error (message : string)
| SyntaxError.

Definition message (e : exn) : string :=
  match e with
  | Error m => m
  | SyntaxError => "Unexpected token in JSON"
  end.

Inductive completion (A : Type) :=
| Normal (a : A)
| Throw (e : exn).
Arguments Normal {A} a.
Arguments Throw {A} e.

(** [JSON.stringify] and [JSON.parse] at the type of one persisted blob.
    [JSON.parse] throws a [SyntaxError] on text that is no JSON, the empty
    text in particular. *)
Class JSON (A : Type) := {
  JSON_stringify : A -> string;
  JSON_parse : string -> completion A;
  JSON_parse_empty : JSON_parse "" = Throw SyntaxError
}.

(** A value is JSON-serializable when parsing its serialization gives it
    back. *)
Definition serializable {A} `{JSON A} (v : A) : Prop :=
  JSON_parse (JSON_stringify v) = Normal v.

(** ** Application state *)

Record App := mkApp {
  localStorage : gmap string string;
  currentUser : option string;
  users : gmap string User.t;
  csrfToken : string;
  cart : gmap string Z;
  csrfInput : string;          (* [csrfInput.value], the hidden form field *)
  alerts : list string         (* notices shown by [alert], latest first *)
}.

Definition set_localStorage (f : gmap string string -> gmap string string) (st : App) : App :=
  mkApp (f (localStorage st)) (currentUser st) (users st) (csrfToken st)
        (cart st) (csrfInput st) (alerts st).

Definition set_currentUser (v : option string) (st : App) : App :=
  mkApp (localStorage st) v (users st) (csrfToken st)
        (cart st) (csrfInput st) (alerts st).

Definition set_users (f : gmap string User.t -> gmap string User.t) (st : App) : App :=
  mkApp (localStorage st) (currentUser st) (f (users st)) (csrfToken st)
        (cart st) (csrfInput st) (alerts st).

Definition set_csrfToken (v : string) (st : App) : App :=
  mkApp (localStorage st) (currentUser st) (users st) v
        (cart st) (csrfInput st) (alerts st).

Definition set_cart (f : gmap string Z -> gmap string Z) (st : App) : App :=
  mkApp (localStorage st) (currentUser st) (users st) (csrfToken st)
        (f (cart st)) (csrfInput st) (alerts st).

Definition set_csrfInput (v : string) (st : App) : App :=
  mkApp (localStorage st) (currentUser st) (users st) (csrfToken st)
        (cart st) v (alerts st).

Definition push_alert (msg : string) (st : App) : App :=
  mkApp (localStorage st) (currentUser st) (users st) (csrfToken st)
        (cart st) (csrfInput st) (msg :: alerts st).

(** ** The monad of script code: state and exceptions *)

Definition JS (A : Type) : Type := App -> completion A * App.

#[global] Instance JS_ret : MRet JS := fun A a st => (Normal a, st).

#[global] Instance JS_bind : MBind JS := fun A B k m st =>
  match m st with
  | (Normal a, st') => k a st'
  | (Throw e, st') => (Throw e, st')
  end.

Definition throw {A} (e : exn) : JS A := fun st => (Throw e, st).

Definition try_catch {A} (body : JS A) (handler : exn -> JS A) : JS A :=
  fun st =>
    match body st with
    | (Normal a, st') => (Normal a, st')
    | (Throw e, st') => handler e st'
    end.

Definition gets {A} (f : App -> A) : JS A := fun st => (Normal (f st), st).

Definition modify (f : App -> App) : JS unit := fun st => (Normal tt, f st).

Definition liftc {A} (c : completion A) : JS A := fun st => (c, st).

Definition alert (msg : string) : JS unit := modify (push_alert msg).

(** State after running a computation. *)
Definition exec {A} (m : JS A) (st : App) : App := (m st).2.

(** ** A codec to run the model with

    The theorems below hold for every codec.  To run the model on concrete
    states one is needed; this one prints a blob as an S-expression and
    parses it back (library Ceres).  A dictionary is written as the list of
    its entries. *)

Module Codec.

#[global] Instance Serialize_user : Serialize User.t :=
  fun u => [Atom "user"; to_sexp (User.passwordHash u)]%sexp.

#[global] Instance Deserialize_user : Deserialize User.t :=
  Deser.match_con "user" [] [("user", Deser.con1_ User.mk)].

#[global] Instance Serialize_order_item : Serialize OrderItem.t :=
  fun i => [Atom "item"; to_sexp (OrderItem.id i); to_sexp (OrderItem.name i);
            to_sexp (OrderItem.qty i); to_sexp (OrderItem.price i)]%sexp.

#[global] Instance Deserialize_order_item : Deserialize OrderItem.t :=
  Deser.match_con "item" [] [("item", Deser.con4_ OrderItem.mk)].

#[global] Instance Serialize_shipping : Serialize Shipping.t :=
  fun s => [Atom "shipping"; to_sexp (Shipping.name s); to_sexp (Shipping.address s);
            to_sexp (Shipping.city s); to_sexp (Shipping.zip s);
            to_sexp (Shipping.phone s)]%sexp.

#[global] Instance Deserialize_shipping : Deserialize Shipping.t :=
  Deser.match_con "shipping" [] [("shipping", Deser.con5_ Shipping.mk)].

#[global] Instance Serialize_order : Serialize Order.t :=
  fun o => [Atom "order"; to_sexp (Order.id o); to_sexp (Order.createdAt o);
            to_sexp (Order.total o); to_sexp (Order.items o);
            to_sexp (Order.shipping o)]%sexp.

#[global] Instance Deserialize_order : Deserialize Order.t :=
  Deser.match_con "order" [] [("order", Deser.con5_ Order.mk)].

#[global] Instance Serialize_gmap {V} `{Serialize V} : Serialize (gmap string V) :=
  fun m => @to_sexp (list (string * V)) _ (map_to_list m).

#[global] Instance Deserialize_gmap {V} `{Deserialize V} : Deserialize (gmap string V) :=
  fun l e =>
    match @_from_sexp (list (string * V)) _ l e with
    | inl err => inl err
    | inr entries => inr (list_to_map entries)
    end.

Definition of_sexp (A : Type) `{Serialize A} `{Deserialize A} : JSON A :=
  {| JSON_stringify := to_string;
     JSON_parse s :=
       match from_string s with
       | inr v => Normal v
       | inl _ => Throw SyntaxError
       end;
     JSON_parse_empty := eq_refl |}.

End Codec.

(** ** The script *)

Import STORAGE_KEYS.

(** [x || 0] on a quantity read from an object. *)
Definition orZero (x : option Z) : Z :=
  match x with
  | Some q => if truthy q then q else 0
  | None => 0
  end.

(** [x || []] on a list read from an object; an array is always truthy. *)
Definition orEmpty {A} (x : option (list A)) : list A := default [] x.

(** Inputs of the checkout form's [submit] handler: the verdict of
    [checkoutForm.checkValidity()], the five shipping fields, and what the
    platform returns for [Math.floor(Math.random() * 1_000_000)],
    [Date.now()] and the four words of [crypto.getRandomValues]. *)
Record SubmitEvent := mkSubmit {
  checkValidity : bool;
  ship_name : string;
  ship_address : string;
  ship_city : string;
  ship_zip : string;
  ship_phone : string;
  random_id : Z;
  now : Z;
  random_values : list Z
}.

(** [generateCsrfToken], given the content of the [Uint32Array] after
    [crypto.getRandomValues(array)]. *)
Definition generateCsrfToken (array : list Z) : string :=
  join (map toString16 array).

Definition sanitizeInput (str : string) : string :=
  removeAll isControl (trim str).

(** [str.replace(/c/g, by)] for a single character [c]; none of the
    replacement texts used below contains a [$] pattern. *)
Fixpoint replaceChar (c : ascii) (by_ : string) (str : string) : string :=
  match str with
  | EmptyString => EmptyString
  | String x rest =>
      if decide (x = c) then by_ +:+ replaceChar c by_ rest
      else String x (replaceChar c by_ rest)
  end.

Definition escapeHTML (str : string) : string :=
  replaceChar "'"%char "&#039;"
    (replaceChar "034"%char "&quot;"
       (replaceChar ">"%char "&gt;"
          (replaceChar "<"%char "&lt;"
             (replaceChar "&"%char "&amp;" str)))).

(** The number [updateCartCount] writes to the cart badge:
    [Object.values(cart).reduce((sum, qty) => sum + qty, 0)]. *)
Definition cartCount (st : App) : Z :=
  foldl (fun sum qty => sum + qty) 0 (map_to_list (cart st)).*2.

(** [Number.MAX_SAFE_INTEGER] *)
Definition MAX_SAFE_INTEGER : Z := 2 ^ 53 - 1.

(** [x || d] on a number; [None] is [NaN]. *)
Definition orNumber (x : option Z) (d : Z) : Z :=
  match x with
  | Some n => if truthy n then n else d
  | None => d
  end.

(** [String.prototype.includes] *)
Fixpoint includes (s sub : string) : bool :=
  String.prefix sub s
  || match s with
     | EmptyString => false
     | String _ rest => includes rest sub
     end.

(** What [renderProducts] reads: the module variable [activeCategory], the
    numbers [Number(filterMinPriceEl.value)] and
    [Number(filterMaxPriceEl.value)] ([None] when the text is no number; a
    blank field gives 0), and the text of the search field. *)
Record Filters := mkFilters {
  activeCategory : string;
  filterMinPrice : option Z;
  filterMaxPrice : option Z;
  filterSearch : string
}.

(** The products [renderProducts] puts on the page: [PRODUCTS.filter(...)]
    with its callback.  Price bounds with a fractional part and search
    texts with characters outside ASCII are outside the model (two product
    names hold U+2011, which [PRODUCTS] carries as bytes). *)
Definition visibleProducts (f : Filters) : list Product.t :=
  let minPrice := orNumber (filterMinPrice f) 0 in
  let maxPrice := orNumber (filterMaxPrice f) MAX_SAFE_INTEGER in
  let query := toLowerCase (trim (filterSearch f)) in
  List.filter
    (fun p =>
       if negb (bool_decide (activeCategory f = "all"))
          && negb (bool_decide (Product.category p = activeCategory f))
       then false
       else if (Product.price p <? minPrice) || (maxPrice <? Product.price p)
       then false
       else if truthy query && negb (includes (toLowerCase (Product.name p)) query)
       then false
       else true)
    PRODUCTS.

Section Shop.

Context `{!JSON (option string)}.
Context `{!JSON (gmap string User.t)}.
Context `{!JSON (gmap string Z)}.
Context `{!JSON (gmap string (list Order.t))}.

(** *** Local storage helpers *)

Definition localStorage_getItem (key : string) : JS (option string) :=
  gets (fun st => localStorage st !! key).

Definition localStorage_setItem (key value : string) : JS unit :=
  modify (set_localStorage (insert key value)).

Definition safeParse {A} `{!JSON A} (json : string) (fallback : A) : JS A :=
  try_catch (liftc (JSON_parse json)) (fun _ => mret fallback).

Definition loadState {A} `{!JSON A} (key : string) (fallback : A) : JS A :=
  raw ← localStorage_getItem key;
  match raw with
  | Some json => if truthy json then safeParse json fallback else mret fallback
  | None => mret fallback
  end.

Definition saveState {A} `{!JSON A} (key : string) (value : A) : JS unit :=
  localStorage_setItem key (JSON_stringify value).

(** What [loadState(key, fallback)] evaluates to in a state; used to
    speak about persisted blobs in statements. *)
Definition stored {A} `{!JSON A} (key : string) (fallback : A) (st : App) : A :=
  match (loadState key fallback st).1 with
  | Normal v => v
  | Throw _ => fallback
  end.

(** *** Authentication *)

Definition setCurrentUser (email : string) : JS unit :=
  modify (set_currentUser (Some email));;
  saveState USER (Some email).

Definition registerUser (email password : string) : JS unit :=
  let normalizedEmail := toLowerCase (trim email) in
  us ← gets users;
  match us !! normalizedEmail with
  | Some _ => throw (Error "User already exists")
  | None =>
      let passwordHash := hashString password in
      modify (set_users (insert normalizedEmail (User.mk passwordHash)));;
      us' ← gets users;
      saveState USERS us'
  end.

Definition loginUser (email password : string) : JS unit :=
  let normalizedEmail := toLowerCase (trim email) in
  us ← gets users;
  match us !! normalizedEmail with
  | None => throw (Error "Invalid credentials")
  | Some user =>
      let passwordHash := hashString password in
      if negb (bool_decide (User.passwordHash user = passwordHash))
      then throw (Error "Invalid credentials")
      else setCurrentUser normalizedEmail
  end.

Definition logoutUser : JS unit :=
  modify (set_currentUser None);;
  saveState USER (None : option string).

(** *** Cart management *)

Definition addToCart (productId : string) : JS unit :=
  modify (set_cart (fun c => <[productId := orZero (c !! productId) + 1]> c));;
  c ← gets cart;
  saveState CART c.

Definition updateCartItem (productId : string) (delta : Z) : JS unit :=
  c ← gets cart;
  match c !! productId with
  | None => mret tt
  | Some q =>
      if negb (truthy q) then mret tt
      else
        let newQty := q + delta in
        (if newQty <=? 0
         then modify (set_cart (delete productId))
         else modify (set_cart (insert productId newQty)));;
        c' ← gets cart;
        saveState CART c'
  end.

Definition clearCart : JS unit :=
  modify (set_cart (fun _ => ∅));;
  c ← gets cart;
  saveState CART c.

(** The callback of [Object.entries(cart).map(...)]; [None] is [null]. *)
Definition withDetails (entry : string * Z) : option CartItem.t :=
  let '(id, qty) := entry in
  match find (fun p => bool_decide (Product.id p = id)) PRODUCTS with
  | None => None
  | Some product =>
      Some (CartItem.mk (Product.id product) (Product.name product)
              (Product.category product) (Product.price product)
              qty (Product.price product * qty))
  end.

Definition cartItemsWithDetails (st : App) : list CartItem.t :=
  omap withDetails (map_to_list (cart st)).

(** [cartTotals()] returns [{ items, subtotal }]. *)
Definition cartTotals (st : App) : list CartItem.t * Z :=
  let items := cartItemsWithDetails st in
  let subtotal := foldl (fun sum item => sum + CartItem.lineTotal item) 0 items in
  (items, subtotal).

(** *** Orders (per user) *)

Definition loadOrders : JS (list Order.t) :=
  allOrders ← loadState ORDERS (∅ : gmap string (list Order.t));
  cu ← gets currentUser;
  match cu with
  | Some u => if truthy u then mret (orEmpty (allOrders !! u)) else mret []
  | None => mret []
  end.

Definition saveOrder (order : Order.t) : JS unit :=
  allOrders ← loadState ORDERS (∅ : gmap string (list Order.t));
  cu ← gets currentUser;
  match cu with
  | Some u =>
      if truthy u then
        let userOrders := orEmpty (allOrders !! u) in
        let userOrders := order :: userOrders in
        let allOrders := <[u := userOrders]> allOrders in
        saveState ORDERS allOrders
      else mret tt
  | None => mret tt
  end.

(** *** Event handlers *)

(** [csrfToken = generateCsrfToken(); csrfInput.value = csrfToken;] *)
Definition reissueToken (array : list Z) : JS unit :=
  modify (set_csrfToken (generateCsrfToken array));;
  tok ← gets csrfToken;
  modify (set_csrfInput tok).

(** Click on the checkout button. *)
Definition btnCheckout_click (array : list Z) : JS unit :=
  '(items, _) ← gets cartTotals;
  if negb (truthy (Z.of_nat (length items))) then alert "Cart is empty."
  else reissueToken array.

(** The order literal built by the submit handler. *)
Definition buildOrder (e : SubmitEvent) (items : list CartItem.t) (subtotal : Z) : Order.t :=
  Order.mk (random_id e) (now e) subtotal
    (map (fun it => OrderItem.mk (CartItem.id it) (CartItem.name it)
                      (CartItem.qty it) (CartItem.price it)) items)
    (Shipping.mk (sanitizeInput (ship_name e)) (sanitizeInput (ship_address e))
       (sanitizeInput (ship_city e)) (sanitizeInput (ship_zip e))
       (sanitizeInput (ship_phone e))).

(** Submission of the checkout form. *)
Definition checkoutForm_submit (e : SubmitEvent) : JS unit :=
  cu ← gets currentUser;
  if negb (truthy cu) then alert "Please login before placing an order."
  else
    formToken ← gets csrfInput;
    tok ← gets csrfToken;
    if negb (truthy formToken) || negb (bool_decide (formToken = tok)) then
      alert "Session expired. Please try again.";;
      reissueToken (random_values e)
    else if negb (checkValidity e) then
      alert "Please fill all required fields correctly."
    else
      '(items, subtotal) ← gets cartTotals;
      if negb (truthy (Z.of_nat (length items))) then alert "Cart is empty."
      else
        let order := buildOrder e items subtotal in
        saveOrder order;;
        clearCart;;
        reissueToken (random_values e);;
        alert "Payment successful (dummy). Order placed!".

(** Submission of the login form. *)
Definition loginForm_submit (email password : string) : JS unit :=
  try_catch (loginUser email password) (fun err => alert (message err)).

(** Submission of the registration form. *)
Definition registerForm_submit (email password : string) : JS unit :=
  try_catch
    (registerUser email password;;
     setCurrentUser (toLowerCase (trim email)))
    (fun err => alert (message err)).

(** Click on the logout button; [confirmed] is the answer to [confirm]. *)
Definition btnLogout_click (confirmed : bool) : JS unit :=
  if confirmed then logoutUser else mret tt.

(** The top-level statements of the script, in order, followed by the part
    of the [DOMContentLoaded] handler that touches the state;
    [array] is the first draw of random words.  The listener first calls
    [renderProducts], [updateCartCount] and [updateUserUI], which only read
    the state and write the document; on blobs of the persisted shapes they
    complete, and they are left out here.  A blob of another shape (a cart
    blob holding [null], say) makes [updateCartCount] throw before the form
    field is set; such storage is outside this model, and no statement
    below about the form field starts from [main]. *)
Definition main (array : list Z) : JS unit :=
  cu ← loadState USER (None : option string);
  modify (set_currentUser cu);;
  us ← loadState USERS (∅ : gmap string User.t);
  modify (set_users (fun _ => us));;
  modify (set_csrfToken (generateCsrfToken array));;
  c ← loadState CART (∅ : gmap string Z);
  modify (set_cart (fun _ => c));;
  tok ← gets csrfToken;
  modify (set_csrfInput tok).

(** The page once loaded on a given content of [localStorage]. *)
Definition page (storage : gmap string string) (array : list Z) : App :=
  exec (main array) (mkApp storage None ∅ "" ∅ "" []).

(** The events that reach the state core. *)
Inductive Event :=
| ProductGridClick (productId : string)
| CartItemsClick (productId : string) (inc : bool)
| BtnCheckoutClick (array : list Z)
| CheckoutFormSubmit (e : SubmitEvent)
| LoginFormSubmit (email password : string)
| RegisterFormSubmit (email password : string)
| BtnLogoutClick (confirmed : bool).

Definition handle (ev : Event) : JS unit :=
  match ev with
  | ProductGridClick productId => addToCart productId
  | CartItemsClick productId inc =>
      if inc then updateCartItem productId 1 else updateCartItem productId (-1)
  | BtnCheckoutClick array => btnCheckout_click array
  | CheckoutFormSubmit e => checkoutForm_submit e
  | LoginFormSubmit email password => loginForm_submit email password
  | RegisterFormSubmit email password => registerForm_submit email password
  | BtnLogoutClick confirmed => btnLogout_click confirmed
  end.

(** The page after a sequence of events, each run to completion. *)
Definition run (evs : list Event) (st : App) : App :=
  foldl (fun s ev => exec (handle ev) s) st evs.

(** Direct calls of the two cart operations, with any delta. *)
Inductive CartCall :=
| AddItem (productId : string)
| UpdateItem (productId : string) (delta : Z).

Definition call (c : CartCall) : JS unit :=
  match c with
  | AddItem productId => addToCart productId
  | UpdateItem productId delta => updateCartItem productId delta
  end.

Definition callAll (cs : list CartCall) (st : App) : App :=
  foldl (fun s c => exec (call c) s) st cs.

End Shop.

(** * Sample runs

    Closed states and events on which the statements are exercised, with
    the codec of [Codec] for the four persisted blobs. *)

Module Sample.

Definition currentUser_JSON : JSON (option string) := Codec.of_sexp _.
Definition users_JSON : JSON (gmap string User.t) := Codec.of_sexp _.
Definition cart_JSON : JSON (gmap string Z) := Codec.of_sexp _.
Definition orders_JSON : JSON (gmap string (list Order.t)) := Codec.of_sexp _.

#[local] Existing Instances currentUser_JSON users_JSON cart_JSON orders_JSON.

(** A page just loaded on empty storage; the first token was drawn from the
    words 1, 2, 3, 4. *)
Definition fresh : App := page ∅ [1; 2; 3; 4].

(** Ann registers, puts two p1 and one p4 in the cart and opens the
    checkout. *)
Definition shopper : App :=
  run [ RegisterFormSubmit " Ann@Shop.io " "secret";
        ProductGridClick "p1"; ProductGridClick "p1"; ProductGridClick "p4";
        BtnCheckoutClick [10; 11; 12; 13] ] fresh.

(** A form that passes validation, and the same form failing it. *)
Definition valid_form : SubmitEvent :=
  {| checkValidity := true;
     ship_name := " Ann Lee "; ship_address := "1 Main St"; ship_city := "Pune";
     ship_zip := "411001"; ship_phone := "5550100";
     random_id := 424242; now := 1700000000000;
     random_values := [20; 21; 22; 23] |}.

Definition invalid_form : SubmitEvent :=
  {| checkValidity := false;
     ship_name := ""; ship_address := "1 Main St"; ship_city := "Pune";
     ship_zip := "411001"; ship_phone := "5550100";
     random_id := 424242; now := 1700000000000;
     random_values := [20; 21; 22; 23] |}.

(** The valid form on a submission where the platform draws again the words
    from which Ann's current token was rendered. *)
Definition same_draw_form : SubmitEvent :=
  {| checkValidity := true;
     ship_name := " Ann Lee "; ship_address := "1 Main St"; ship_city := "Pune";
     ship_zip := "411001"; ship_phone := "5550100";
     random_id := 424242; now := 1700000000000;
     random_values := [10; 11; 12; 13] |}.

End Sample.

(** * Vocabulary of the statements *)

(** The cart of the data model: every stored quantity is strictly
    positive. *)
Definition cart_ok (c : gmap string Z) : Prop :=
  map_Forall (fun _ q => 0 < q) c.

(** Sum of a list of amounts. *)
Definition sumZ (l : list Z) : Z := foldr Z.add 0 l.

(** The catalog entry with a given id, as [PRODUCTS.find(p => p.id === id)]
    finds it. *)
Definition findProduct (id : string) : option Product.t :=
  find (fun p => bool_decide (Product.id p = id)) PRODUCTS.

(** The cart item the script builds from a catalog product and a
    quantity. *)
Definition itemOf (product : Product.t) (qty : Z) : CartItem.t :=
  CartItem.mk (Product.id product) (Product.name product)
    (Product.category product) (Product.price product)
    qty (Product.price product * qty).

(** The three globals agree with what [loadState] reads for them. *)
Definition synced `{!JSON (option string)} `{!JSON (gmap string User.t)}
    `{!JSON (gmap string Z)} (st : App) : Prop :=
  stored USER (None : option string) st = currentUser st
  /\ stored USERS (∅ : gmap string User.t) st = users st
  /\ stored CART (∅ : gmap string Z) st = cart st.

(** The characters [escapeHTML] replaces. *)
Definition isSpecial (c : ascii) : bool :=
  bool_decide (c = "&"%char) || bool_decide (c = "<"%char)
  || bool_decide (c = ">"%char) || bool_decide (c = "034"%char)
  || bool_decide (c = "'"%char).

(** What [escapeHTML] writes for one character. *)
Definition entity (c : ascii) : string :=
  if decide (c = "&"%char) then "&amp;"
  else if decide (c = "<"%char) then "&lt;"
  else if decide (c = ">"%char) then "&gt;"
  else if decide (c = "034"%char) then "&quot;"
  else if decide (c = "'"%char) then "&#039;"
  else String c EmptyString.

(** Every character of a string satisfies a test. *)
Fixpoint allChars (P : ascii -> bool) (s : string) : bool :=
  match s with
  | EmptyString => true
  | String c rest => P c && allChars P rest
  end.


(** The random words an event brings are not an empty array (the script
    always asks for four). *)
Definition draws_words (ev : Event) : Prop :=
  match ev with
  | BtnCheckoutClick array => array <> []
  | CheckoutFormSubmit e => random_values e <> []
  | _ => True
  end.

(** Along a sequence of events, every value of the three persisted globals
    survives the codec. *)
Fixpoint persistable `{!JSON (option string)} `{!JSON (gmap string User.t)}
    `{!JSON (gmap string Z)} `{!JSON (gmap string (list Order.t))}
    (evs : list Event) (st : App) : Prop :=
  match evs with
  | [] => True
  | ev :: evs' =>
      let st' := exec (handle ev) st in
      (serializable (currentUser st') /\ serializable (users st')
       /\ serializable (cart st'))
      /\ persistable evs' st'
  end.

(** The catalog price of a product id, 0 for an id the catalog does not
    have. *)
Definition priceOf (id : string) : Z :=
  match findProduct id with
  | Some p => Product.price p
  | None => 0
  end.

(** Login, registration and logout. *)
Definition is_auth (ev : Event) : Prop :=
  match ev with
  | LoginFormSubmit _ _ | RegisterFormSubmit _ _ | BtnLogoutClick _ => True
  | _ => False
  end.

(** One pass over the text, writing [entity c] for each character. *)
Fixpoint escapeEach (s : string) : string :=
  match s with
  | EmptyString => EmptyString
  | String c rest => entity c +:+ escapeEach rest
  end.

(** The characters that can open or close markup or an attribute value. *)
Definition isMarkup (c : ascii) : bool :=
  bool_decide (c = "<"%char) || bool_decide (c = ">"%char)
  || bool_decide (c = "034"%char) || bool_decide (c = "'"%char).

(** The digits of [toString(16)]. *)
Definition isHexDigit (c : ascii) : bool :=
  let n := charCode c in
  ((48 <=? n) && (n <=? 57)) || ((97 <=? n) && (n <=? 102)).

(** * Properties *)

(** Unfolds the monad so that a run of script code computes. *)
Ltac js_unfold :=
  unfold exec, mbind, JS_bind, mret, JS_ret, gets, modify, throw, try_catch,
    liftc, alert in *.

Section Properties.

Context `{!JSON (option string)}.
Context `{!JSON (gmap string User.t)}.
Context `{!JSON (gmap string Z)}.
Context `{!JSON (gmap string (list Order.t))}.

(** ** The string helpers and the hash on examples *)

Example normalize_example : toLowerCase (trim "  Ann@Shop.IO ") = "ann@shop.io".
Proof. reflexivity. Qed.

Example sanitizeInput_example :
  sanitizeInput (String (fromCharCode 9) ("Ann" +:+ String (fromCharCode 7) "Lee "))
  = "AnnLee".
Proof. reflexivity. Qed.

Example hashString_empty : hashString "" = "1505".
Proof. reflexivity. Qed.

Example hashString_example : hashString "password123" = "8159cfaa".
Proof. reflexivity. Qed.

Example generateCsrfToken_example : generateCsrfToken [10; 11; 12; 4294967295] = "abcffffffff".
Proof. reflexivity. Qed.

(** ** Storage adapter *)

Lemma saveState_run {A} `{!JSON A} (key : string) (v : A) (st : App) :
  saveState key v st
  = (Normal tt, set_localStorage (insert key (JSON_stringify v)) st).
Proof. reflexivity. Qed.

Lemma safeParse_run {A} `{!JSON A} (json : string) (fallback : A) (st : App) :
  safeParse json fallback st
  = (Normal match JSON_parse json with Normal v => v | Throw _ => fallback end, st).
Proof.
  unfold safeParse. js_unfold. by destruct (JSON_parse json).
Qed.

Lemma loadState_run {A} `{!JSON A} (key : string) (fallback : A) (st : App) :
  loadState key fallback st = (Normal (stored key fallback st), st).
Proof.
  unfold stored, loadState, localStorage_getItem. js_unfold.
  destruct (localStorage st !! key) as [json|]; [|done].
  destruct (truthy json); [|done].
  by rewrite safeParse_run.
Qed.

Lemma stored_eq {A} `{!JSON A} (key : string) (fallback : A) (st : App) :
  stored key fallback st
  = match localStorage st !! key with
    | Some json =>
        if truthy json
        then match JSON_parse json with Normal v => v | Throw _ => fallback end
        else fallback
    | None => fallback
    end.
Proof.
  unfold stored, loadState, localStorage_getItem. js_unfold.
  destruct (localStorage st !! key) as [json|]; [|done].
  destruct (truthy json); [|done].
  by rewrite safeParse_run.
Qed.

Lemma serializable_truthy {A} `{!JSON A} (v : A) :
  serializable v -> truthy (JSON_stringify v) = true.
Proof.
  unfold serializable. destruct (JSON_stringify v) eqn:E; [|done].
  by rewrite JSON_parse_empty.
Qed.

Lemma stored_insert {A} `{!JSON A} (key : string) (v fallback : A)
    (f : gmap string string) (st : App) :
  serializable v ->
  localStorage st = <[key := JSON_stringify v]> f ->
  stored key fallback st = v.
Proof.
  intros Hv Hst. rewrite stored_eq, Hst, lookup_insert_eq.
  rewrite (serializable_truthy v Hv). by rewrite Hv.
Qed.

(** C8. Storage round trip: [saveState(key, v)] followed by
    [loadState(key, fallback)] returns [v] for every JSON-serializable
    [v]; when nothing is stored under [key], or the stored text does not
    parse, [loadState] returns [fallback]; and [loadState] always
    completes normally, leaving the state as it was. *)
Theorem storage_round_trip {A} `{!JSON A} (key : string) (v fallback : A) (st : App) :
  (serializable v ->
     let st1 := exec (saveState key v) st in
     saveState key v st = (Normal tt, st1)
     /\ loadState key fallback st1 = (Normal v, st1))
  /\ ((localStorage st !! key = None
       \/ exists raw e, localStorage st !! key = Some raw
                        /\ JSON_parse (A:=A) raw = Throw e) ->
      loadState key fallback st = (Normal fallback, st))
  /\ (exists r, loadState key fallback st = (Normal r, st)).
Proof.
  split; [|split].
  - intros Hv st1. split; [done|].
    rewrite loadState_run. f_equal. f_equal.
    by apply (stored_insert key v fallback (localStorage st)).
  - intros Hraw. rewrite loadState_run, stored_eq.
    destruct Hraw as [-> | (raw & e & -> & ->)]; [done|].
    by destruct (truthy raw).
  - eexists. apply loadState_run.
Qed.

(** ** Authentication *)

Local Notation "'normalize' email" := (toLowerCase (trim email)) (at level 10, email at level 9, only parsing).

Lemma registerUser_run (email password : string) (st : App) :
  registerUser email password st
  = match users st !! normalize email with
    | Some _ => (Throw (Error "User already exists"), st)
    | None =>
        let st1 :=
          set_users (insert (normalize email) (User.mk (hashString password))) st in
        (Normal tt,
         set_localStorage (insert USERS (JSON_stringify (users st1))) st1)
    end.
Proof.
  unfold registerUser. js_unfold. simpl.
  by destruct (users st !! normalize email).
Qed.

Lemma setCurrentUser_run (email : string) (st : App) :
  setCurrentUser email st
  = (Normal tt,
     set_localStorage (insert USER (JSON_stringify (Some email)))
       (set_currentUser (Some email) st)).
Proof. reflexivity. Qed.

Lemma loginUser_run (email password : string) (st : App) :
  loginUser email password st
  = match users st !! normalize email with
    | None => (Throw (Error "Invalid credentials"), st)
    | Some user =>
        if bool_decide (User.passwordHash user = hashString password)
        then setCurrentUser (normalize email) st
        else (Throw (Error "Invalid credentials"), st)
    end.
Proof.
  unfold loginUser. js_unfold. simpl.
  destruct (users st !! normalize email) as [user|]; [|done].
  by destruct (bool_decide _).
Qed.

(** C9. Authentication errors are atomic: when [registerUser] throws, the
    error is "User already exists", when [loginUser] throws, it is
    "Invalid credentials", and in both cases the state at the throw is
    the state before the call: [users], [currentUser] and [localStorage]
    are as they were. *)
Theorem auth_errors_are_atomic (email password : string) (st st' : App) (err : exn) :
  (registerUser email password st = (Throw err, st') ->
     err = Error "User already exists" /\ st' = st
     /\ users st' = users st /\ currentUser st' = currentUser st
     /\ localStorage st' = localStorage st)
  /\ (loginUser email password st = (Throw err, st') ->
       err = Error "Invalid credentials" /\ st' = st
       /\ users st' = users st /\ currentUser st' = currentUser st
       /\ localStorage st' = localStorage st).
Proof.
  split.
  - rewrite registerUser_run.
    destruct (users st !! normalize email); simpl; intros [= <- <-]; done.
  - rewrite loginUser_run.
    destruct (users st !! normalize email) as [user|]; simpl.
    + destruct (bool_decide _); [by rewrite setCurrentUser_run|].
      intros [= <- <-]; done.
    + intros [= <- <-]; done.
Qed.

(** *** The user directory only grows *)

Lemma saveOrder_run (order : Order.t) (st : App) :
  saveOrder order st
  = (Normal tt,
     match currentUser st with
     | Some u =>
         if truthy u then
           let allOrders := stored ORDERS (∅ : gmap string (list Order.t)) st in
           set_localStorage
             (insert ORDERS
                (JSON_stringify (<[u := order :: orEmpty (allOrders !! u)]> allOrders)))
             st
         else st
     | None => st
     end).
Proof.
  unfold saveOrder. unfold mbind at 1, JS_bind. rewrite loadState_run.
  js_unfold. simpl. destruct (currentUser st) as [u|]; [|done].
  by destruct (truthy u).
Qed.

Lemma reissueToken_run (array : list Z) (st : App) :
  reissueToken array st
  = (Normal tt,
     set_csrfInput (generateCsrfToken array)
       (set_csrfToken (generateCsrfToken array) st)).
Proof. reflexivity. Qed.

Lemma clearCart_run (st : App) :
  clearCart st
  = (Normal tt,
     set_localStorage (insert CART (JSON_stringify (∅ : gmap string Z)))
       (set_cart (fun _ => ∅) st)).
Proof. reflexivity. Qed.

(** The state a submission of the checkout form ends in, branch by
    branch. *)
Lemma checkoutForm_submit_run (e : SubmitEvent) (st : App) :
  checkoutForm_submit e st
  = (Normal tt,
     if negb (truthy (currentUser st)) then
       push_alert "Please login before placing an order." st
     else if negb (truthy (csrfInput st))
             || negb (bool_decide (csrfInput st = csrfToken st)) then
       exec (reissueToken (random_values e))
         (push_alert "Session expired. Please try again." st)
     else if negb (checkValidity e) then
       push_alert "Please fill all required fields correctly." st
     else if negb (truthy (Z.of_nat (length (cartTotals st).1))) then
       push_alert "Cart is empty." st
     else
       let order := buildOrder e (cartTotals st).1 (cartTotals st).2 in
       push_alert "Payment successful (dummy). Order placed!"
         (exec (reissueToken (random_values e))
            (exec clearCart (exec (saveOrder order) st)))).
Proof.
  unfold checkoutForm_submit.
  unfold mbind at 1, JS_bind, gets. simpl.
  destruct (truthy (currentUser st)); [|done]. simpl.
  unfold mbind at 1, JS_bind, gets. simpl.
  unfold mbind at 1, JS_bind, gets. simpl.
  destruct (_ || _); [done|]. simpl.
  destruct (checkValidity e); [|done]. simpl.
  unfold mbind at 1, JS_bind, gets. simpl.
  destruct (truthy _); [|done]. simpl.
  unfold mbind at 1, JS_bind, exec. by rewrite saveOrder_run.
Qed.

Lemma addToCart_run (productId : string) (st : App) :
  addToCart productId st
  = (Normal tt,
     let st1 :=
       set_cart (fun c => <[productId := orZero (c !! productId) + 1]> c) st in
     set_localStorage (insert CART (JSON_stringify (cart st1))) st1).
Proof. reflexivity. Qed.

Lemma updateCartItem_run (productId : string) (delta : Z) (st : App) :
  updateCartItem productId delta st
  = (Normal tt,
     match cart st !! productId with
     | None => st
     | Some q =>
         if negb (truthy q) then st
         else
           let st1 :=
             if q + delta <=? 0 then set_cart (delete productId) st
             else set_cart (insert productId (q + delta)) st in
           set_localStorage (insert CART (JSON_stringify (cart st1))) st1
     end).
Proof.
  unfold updateCartItem. js_unfold. simpl.
  destruct (cart st !! productId) as [q|]; [|done].
  destruct (truthy q); [|done]. simpl.
  by destruct (q + delta <=? 0).
Qed.

Lemma btnCheckout_click_run (array : list Z) (st : App) :
  btnCheckout_click array st
  = (Normal tt,
     if negb (truthy (Z.of_nat (length (cartTotals st).1)))
     then push_alert "Cart is empty." st
     else exec (reissueToken array) st).
Proof.
  unfold btnCheckout_click. js_unfold. simpl.
  by destruct (truthy _).
Qed.

Lemma logoutUser_run (st : App) :
  logoutUser st
  = (Normal tt,
     set_localStorage (insert USER (JSON_stringify (None : option string)))
       (set_currentUser None st)).
Proof. reflexivity. Qed.

Lemma loginForm_submit_run (email password : string) (st : App) :
  loginForm_submit email password st
  = match loginUser email password st with
    | (Normal _, st') => (Normal tt, st')
    | (Throw err, st') => (Normal tt, push_alert (message err) st')
    end.
Proof.
  unfold loginForm_submit. js_unfold.
  by destruct (loginUser email password st) as [[[]|err] st'].
Qed.

Lemma registerForm_submit_run (email password : string) (st : App) :
  registerForm_submit email password st
  = match registerUser email password st with
    | (Normal _, st') => setCurrentUser (normalize email) st'
    | (Throw err, st') => (Normal tt, push_alert (message err) st')
    end.
Proof.
  unfold registerForm_submit. js_unfold.
  destruct (registerUser email password st) as [[[]|err] st']; [|done].
  by rewrite setCurrentUser_run.
Qed.

(** A record of the directory is never removed or changed: no handler
    deletes from [users], and [registerUser] writes only under a key that
    has no record. *)
Lemma handle_users_mono (ev : Event) (st : App) (k : string) (user : User.t) :
  users st !! k = Some user -> users (exec (handle ev) st) !! k = Some user.
Proof.
  intros Hk. destruct ev as [id|id inc|array|e|email pw|email pw|confirmed]; simpl.
  - done.
  - unfold exec. destruct inc; rewrite updateCartItem_run; simpl;
      repeat case_match; done.
  - unfold exec at 1. rewrite btnCheckout_click_run. simpl.
    by case_match.
  - unfold exec at 1. rewrite checkoutForm_submit_run. simpl.
    unfold exec. rewrite saveOrder_run. simpl.
    repeat case_match; done.
  - unfold exec. rewrite loginForm_submit_run, loginUser_run.
    destruct (users st !! normalize email) as [u|]; [|done].
    destruct (bool_decide _); [|done]. by rewrite setCurrentUser_run.
  - unfold exec. rewrite registerForm_submit_run, registerUser_run.
    destruct (users st !! normalize email) eqn:E; simpl; [done|].
    rewrite lookup_insert_ne; [done|]. intros Heq. rewrite Heq in E. congruence.
  - destruct confirmed; done.
Qed.

Lemma run_users_mono (evs : list Event) (st : App) (k : string) (user : User.t) :
  users st !! k = Some user -> users (run evs st) !! k = Some user.
Proof.
  revert st. induction evs as [|ev evs IH]; intros st Hk; [done|].
  simpl. apply IH. by apply handle_users_mono.
Qed.

Lemma registerUser_stores (email password : string) (st st1 : App) :
  registerUser email password st = (Normal tt, st1) ->
  users st1 !! normalize email = Some (User.mk (hashString password)).
Proof.
  rewrite registerUser_run.
  destruct (users st !! normalize email); [done|].
  simpl. intros [= <-]. simpl. apply lookup_insert_eq.
Qed.

(** C5. Register/login round trip: after [registerUser(e, p)] has
    succeeded, [loginUser(e, p)] succeeds, at once or after any further
    events, and sets (and persists) the current user to the trimmed,
    lower-cased [e]; [loginUser] with a password whose digest differs from
    the stored hash throws "Invalid credentials", and so does [loginUser]
    with an email that has no record. *)
Theorem register_login_round_trip :
  (forall (e p : string) (st st1 : App) (evs : list Event),
     registerUser e p st = (Normal tt, st1) ->
     exists st3,
       loginUser e p (run evs st1) = (Normal tt, st3)
       /\ currentUser st3 = Some (normalize e)
       /\ localStorage st3 !! USER = Some (JSON_stringify (Some (normalize e))))
  /\ (forall (e p' : string) (st : App) (user : User.t),
        users st !! normalize e = Some user ->
        hashString p' <> User.passwordHash user ->
        loginUser e p' st = (Throw (Error "Invalid credentials"), st))
  /\ (forall (e p' : string) (st : App),
        users st !! normalize e = None ->
        loginUser e p' st = (Throw (Error "Invalid credentials"), st)).
Proof.
  split; [|split].
  - intros e p st st1 evs Hreg.
    pose proof (run_users_mono evs _ _ _ (registerUser_stores _ _ _ _ Hreg)) as Hk.
    rewrite loginUser_run, Hk. simpl.
    rewrite bool_decide_eq_true_2 by done.
    rewrite setCurrentUser_run. eexists. split; [done|]. simpl.
    split; [done|]. apply lookup_insert_eq.
  - intros e p' st user Hk Hne. rewrite loginUser_run, Hk.
    rewrite bool_decide_eq_false_2; [done|]. congruence.
  - intros e p' st Hk. by rewrite loginUser_run, Hk.
Qed.

(** C6. Duplicate registration: once [registerUser(e1, p1)] has succeeded,
    [registerUser(e2, p2)] throws "User already exists" whenever [e2] equals
    [e1] after trimming and lower-casing, whatever the passwords and
    whatever events happened in between. *)
Theorem duplicate_registration_fails
    (e1 p1 e2 p2 : string) (st st1 : App) (evs : list Event) :
  normalize e1 = normalize e2 ->
  registerUser e1 p1 st = (Normal tt, st1) ->
  registerUser e2 p2 (run evs st1)
  = (Throw (Error "User already exists"), run evs st1).
Proof.
  intros Heq Hreg.
  pose proof (run_users_mono evs _ _ _ (registerUser_stores _ _ _ _ Hreg)) as Hk.
  by rewrite registerUser_run, <- Heq, Hk.
Qed.

(** ** Cart *)

Lemma addToCart_cart_ok (productId : string) (st : App) :
  cart_ok (cart st) -> cart_ok (cart (exec (addToCart productId) st)).
Proof.
  intros Hok. unfold exec. rewrite addToCart_run. simpl.
  apply map_Forall_insert_2; [|done].
  unfold orZero. destruct (cart st !! productId) as [q|] eqn:E; [|lia].
  specialize (Hok _ _ E). simpl in Hok. destruct (truthy q); lia.
Qed.

Lemma updateCartItem_cart_ok (productId : string) (delta : Z) (st : App) :
  cart_ok (cart st) -> cart_ok (cart (exec (updateCartItem productId delta) st)).
Proof.
  intros Hok. unfold exec. rewrite updateCartItem_run. simpl.
  destruct (cart st !! productId) as [q|]; [|done].
  destruct (truthy q); [|done]. simpl.
  destruct (Z.leb_spec (q + delta) 0); simpl.
  - by apply map_Forall_delete.
  - by apply map_Forall_insert_2.
Qed.

(** C3. Cart quantity invariant: from a cart whose stored quantities are
    all strictly positive, any finite sequence of [addToCart] and
    [updateCartItem] calls, with any integer deltas, leads to a cart in
    which every product id present maps to a strictly positive integer; no
    entry holds zero or a negative quantity. *)
Theorem cart_quantities_stay_positive (cs : list CartCall) (st : App) :
  cart_ok (cart st) ->
  cart_ok (cart (callAll cs st))
  /\ forall (productId : string) (q : Z),
       cart (callAll cs st) !! productId = Some q -> 0 < q.
Proof.
  revert st. induction cs as [|c cs IH]; intros st Hok.
  - split; [done|]. intros productId q Hq. by apply (Hok _ _ Hq).
  - simpl. apply IH. destruct c as [productId|productId delta]; simpl.
    + by apply addToCart_cart_ok.
    + by apply updateCartItem_cart_ok.
Qed.

(** The invariant also holds along the events of the page: besides the two
    cart operations only [clearCart] writes the cart. *)
Lemma run_cart_ok (evs : list Event) (st : App) :
  cart_ok (cart st) -> cart_ok (cart (run evs st)).
Proof.
  revert st. induction evs as [|ev evs IH]; intros st Hok; [done|].
  simpl. apply IH.
  destruct ev as [id|id inc|array|e|email pw|email pw|confirmed]; simpl.
  - by apply addToCart_cart_ok.
  - destruct inc; by apply updateCartItem_cart_ok.
  - unfold exec at 1. rewrite btnCheckout_click_run. simpl. by case_match.
  - unfold exec at 1. rewrite checkoutForm_submit_run. simpl.
    unfold exec. rewrite saveOrder_run. simpl.
    repeat case_match; try done; apply map_Forall_empty.
  - unfold exec. rewrite loginForm_submit_run, loginUser_run.
    destruct (users st !! normalize email) as [u|]; [|done].
    destruct (bool_decide _); [|done]. by rewrite setCurrentUser_run.
  - unfold exec. rewrite registerForm_submit_run, registerUser_run.
    by destruct (users st !! normalize email).
  - by destruct confirmed.
Qed.

(** The cart after [updateCartItem], whatever the cart: the guard
    [!cart[productId]] returns early on an absent id and on a stored 0
    alike. *)
Lemma updateCartItem_cart (productId : string) (delta : Z) (st : App) :
  cart (exec (updateCartItem productId delta) st)
  = match cart st !! productId with
    | None => cart st
    | Some q =>
        if q =? 0 then cart st
        else if q + delta <=? 0 then delete productId (cart st)
        else <[productId := q + delta]> (cart st)
    end.
Proof.
  unfold exec. rewrite updateCartItem_run. simpl.
  destruct (cart st !! productId) as [q|]; [|done].
  unfold truthy, Z_truthy. destruct (q =? 0); [done|]. simpl.
  by destruct (q + delta <=? 0).
Qed.

(** C4. On every cart of the data model (each stored quantity strictly
    positive, which the script maintains), for every product id and integer
    delta: [updateCartItem(id, delta)] leaves the cart, and the whole state,
    as it is when [id] is absent; when [id] is present with quantity [q] it
    removes the entry if [q + delta <= 0] and stores [q + delta] otherwise.
    In particular [updateCartItem("p1", -2)] on a cart where p1 has
    quantity 2 removes p1 entirely. *)
Theorem updateCartItem_semantics (productId : string) (delta : Z) (st : App) :
  cart_ok (cart st) ->
  (cart st !! productId = None -> exec (updateCartItem productId delta) st = st)
  /\ (forall q, cart st !! productId = Some q ->
        cart (exec (updateCartItem productId delta) st)
        = if q + delta <=? 0 then delete productId (cart st)
          else <[productId := q + delta]> (cart st))
  /\ (cart st !! "p1" = Some 2 ->
      cart (exec (updateCartItem "p1" (-2)) st) = delete "p1" (cart st)
      /\ cart (exec (updateCartItem "p1" (-2)) st) !! "p1" = None).
Proof.
  intros Hok. split; [|split].
  - intros Habsent. unfold exec. by rewrite updateCartItem_run, Habsent.
  - intros q Hq. rewrite updateCartItem_cart, Hq.
    pose proof (Hok _ _ Hq) as Hpos. simpl in Hpos.
    by rewrite (proj2 (Z.eqb_neq q 0)) by lia.
  - intros Hp1. rewrite updateCartItem_cart, Hp1. simpl.
    split; [done|]. apply lookup_delete_eq.
Qed.

(** ** Totals *)

Lemma catalog_ids_unique : NoDup (Product.id <$> PRODUCTS).
Proof. by apply (bool_decide_unpack _). Qed.

Lemma find_by_id_unique (l : list Product.t) (id : string) (p : Product.t) :
  NoDup (Product.id <$> l) ->
  find (fun p => bool_decide (Product.id p = id)) l = Some p
  <-> p ∈ l /\ Product.id p = id.
Proof.
  induction l as [|x l IH]; simpl; intros Hnd.
  - split; [done|]. intros [Hin _]. by apply elem_of_nil in Hin.
  - apply NoDup_cons in Hnd as [Hx Hnd]. case_bool_decide as Hid.
    + split.
      * intros [= <-]. split; [apply elem_of_cons; by left|done].
      * intros [[->|Hin]%elem_of_cons Hp]; [done|].
        destruct Hx. rewrite Hid, <- Hp. by apply list_elem_of_fmap_2.
    + rewrite IH by done. split.
      * intros [Hin Hp]. split; [apply elem_of_cons; by right|done].
      * intros [[->|Hin]%elem_of_cons Hp]; done.
Qed.

Lemma findProduct_Some (id : string) (p : Product.t) :
  findProduct id = Some p <-> p ∈ PRODUCTS /\ Product.id p = id.
Proof. apply find_by_id_unique, catalog_ids_unique. Qed.

Lemma withDetails_Some (id : string) (qty : Z) (item : CartItem.t) :
  withDetails (id, qty) = Some item
  <-> exists p, p ∈ PRODUCTS /\ Product.id p = id /\ item = itemOf p qty.
Proof.
  unfold withDetails. fold (findProduct id).
  destruct (findProduct id) as [p|] eqn:E.
  - pose proof (proj1 (findProduct_Some _ _) E) as [Hp Hpid]. split.
    + intros [= <-]. by exists p.
    + intros (p' & Hin & Hid & ->).
      assert (findProduct id = Some p') as E' by by apply findProduct_Some.
      rewrite E in E'. by injection E' as ->.
  - split; [done|]. intros (p' & Hin & Hid & ->).
    assert (findProduct id = Some p') as E' by by apply findProduct_Some.
    congruence.
Qed.

Lemma withDetails_id (entry : string * Z) (item : CartItem.t) :
  withDetails entry = Some item -> CartItem.id item = entry.1.
Proof.
  destruct entry as [id qty]. intros (p & _ & Hid & ->)%withDetails_Some.
  done.
Qed.

Lemma omap_withDetails_ids (l : list (string * Z)) :
  NoDup l.*1 -> NoDup (CartItem.id <$> omap withDetails l).
Proof.
  induction l as [|entry l IH]; simpl; [constructor|].
  intros [Hx Hnd]%NoDup_cons.
  destruct (withDetails entry) as [item|] eqn:E; simpl; [|by apply IH].
  apply NoDup_cons. split; [|by apply IH].
  rewrite (withDetails_id _ _ E).
  intros (item' & Hid & (entry' & Hin & E')%list_elem_of_omap)%list_elem_of_fmap.
  apply Hx. rewrite Hid, (withDetails_id _ _ E').
  by apply list_elem_of_fmap_2.
Qed.

Lemma foldl_sum {A} (f : A -> Z) (l : list A) (a : Z) :
  foldl (fun sum x => sum + f x) a l = a + sumZ (f <$> l).
Proof.
  revert a. induction l as [|x l IH]; intros a; csimpl.
  - unfold sumZ. simpl. lia.
  - rewrite IH. unfold sumZ. simpl. lia.
Qed.

Lemma cartItems_elem (st : App) (item : CartItem.t) :
  item ∈ cartItemsWithDetails st
  <-> exists p qty, p ∈ PRODUCTS /\ cart st !! Product.id p = Some qty
                    /\ item = itemOf p qty.
Proof.
  unfold cartItemsWithDetails. rewrite list_elem_of_omap. split.
  - intros ([id qty] & Hin%elem_of_map_to_list & (p & Hp & Hid & ->)%withDetails_Some).
    exists p, qty. by rewrite Hid.
  - intros (p & qty & Hp & Hq & ->). exists (Product.id p, qty).
    split; [by apply elem_of_map_to_list|].
    apply withDetails_Some. by exists p.
Qed.

(** C7. [cartTotals()] returns exactly the cart entries whose product id
    occurs in the catalog, each once, with the product's fields, the
    stored quantity and [lineTotal = price * qty]; entries with an unknown
    id are dropped; the subtotal is the sum of the line totals.  The cart
    [{p1: 2, p4: 1}] has subtotal 9997. *)
Theorem cartTotals_correct (st : App) :
  (forall item : CartItem.t,
     item ∈ (cartTotals st).1
     <-> exists p qty, p ∈ PRODUCTS /\ cart st !! Product.id p = Some qty
                       /\ item = itemOf p qty)
  /\ NoDup (CartItem.id <$> (cartTotals st).1)
  /\ Forall (fun item => CartItem.lineTotal item = CartItem.price item * CartItem.qty item)
        (cartTotals st).1
  /\ (cartTotals st).2 = sumZ (CartItem.lineTotal <$> (cartTotals st).1)
  /\ (cart st = {[ "p1" := 2; "p4" := 1 ]} -> (cartTotals st).2 = 9997).
Proof.
  split; [|split; [|split; [|split]]].
  - apply cartItems_elem.
  - apply omap_withDetails_ids, NoDup_fst_map_to_list.
  - apply Forall_forall. intros item (p & qty & _ & _ & ->)%cartItems_elem. done.
  - unfold cartTotals. simpl. by rewrite foldl_sum.
  - intros Hc. unfold cartTotals, cartItemsWithDetails. rewrite Hc.
    by vm_compute.
Qed.

(** ** Checkout *)

Lemma truthy_length {A} (l : list A) :
  truthy (Z.of_nat (length l)) = negb (bool_decide (l = [])).
Proof. by destruct l. Qed.

Lemma truthy_identity (cu : option string) :
  truthy cu = true <-> exists u, cu = Some u /\ truthy u = true.
Proof.
  destruct cu as [u|]; simpl; split; try done.
  - intros Hu. by exists u.
  - by intros (u' & [= <-] & Hu).
  - by intros (u' & [=] & _).
Qed.

Lemma loadOrders_run (st : App) :
  loadOrders st
  = (Normal
       match currentUser st with
       | Some u =>
           if truthy u
           then orEmpty (stored ORDERS (∅ : gmap string (list Order.t)) st !! u)
           else []
       | None => []
       end, st).
Proof.
  unfold loadOrders. unfold mbind at 1, JS_bind. rewrite loadState_run.
  js_unfold. simpl. destruct (currentUser st) as [u|]; [|done].
  by destruct (truthy u).
Qed.

(** The state after an accepted submission. *)
Lemma submit_accepted (e : SubmitEvent) (st : App) (u : string) :
  currentUser st = Some u -> truthy u = true ->
  truthy (csrfInput st) = true -> csrfInput st = csrfToken st ->
  checkValidity e = true -> (cartTotals st).1 <> [] ->
  let order := buildOrder e (cartTotals st).1 (cartTotals st).2 in
  let allOrders := stored ORDERS (∅ : gmap string (list Order.t)) st in
  let token := generateCsrfToken (random_values e) in
  exec (checkoutForm_submit e) st
  = mkApp
      (<[CART := JSON_stringify (∅ : gmap string Z)]>
         (<[ORDERS := JSON_stringify (<[u := order :: orEmpty (allOrders !! u)]> allOrders)]>
            (localStorage st)))
      (Some u) (users st) token ∅ token
      ("Payment successful (dummy). Order placed!" :: alerts st).
Proof.
  intros Hcu Hu Htok Heq Hvalid Hitems. cbv zeta.
  assert (truthy (currentUser st) = true) as Hcu' by (by rewrite Hcu).
  unfold exec at 1. rewrite checkoutForm_submit_run. cbn [snd].
  rewrite Hcu', Htok, Hvalid, truthy_length.
  rewrite (bool_decide_eq_true_2 _ Heq), (bool_decide_eq_false_2 _ Hitems).
  cbn [negb orb]. cbv zeta.
  unfold exec. rewrite saveOrder_run, Hcu, Hu.
  rewrite reissueToken_run, clearCart_run.
  unfold push_alert, set_csrfInput, set_csrfToken, set_localStorage, set_cart.
  cbn. by rewrite Hcu.
Qed.

(** The state after a rejected submission: a notice is shown, and the token
    is re-issued only in the branch of the token check. *)
Lemma submit_rejected (e : SubmitEvent) (st : App) :
  truthy (currentUser st) = false \/ truthy (csrfInput st) = false
  \/ csrfInput st <> csrfToken st \/ checkValidity e = false
  \/ (cartTotals st).1 = [] ->
  exists notice,
    exec (checkoutForm_submit e) st
    = if truthy (currentUser st)
         && (negb (truthy (csrfInput st))
             || negb (bool_decide (csrfInput st = csrfToken st)))
      then
        let token := generateCsrfToken (random_values e) in
        set_csrfInput token (set_csrfToken token (push_alert notice st))
      else push_alert notice st.
Proof.
  intros Hrej. unfold exec at 1. rewrite checkoutForm_submit_run. simpl.
  destruct (truthy (currentUser st)) eqn:Hcu; simpl; [|by eexists].
  destruct (negb (truthy (csrfInput st))
            || negb (bool_decide (csrfInput st = csrfToken st))) eqn:Htok;
    simpl; [by eexists|].
  apply orb_false_elim in Htok as [Ht1%negb_false_iff Ht2%negb_false_iff].
  apply bool_decide_eq_true_1 in Ht2.
  destruct (checkValidity e) eqn:Hvalid; simpl; [|by eexists].
  rewrite truthy_length.
  destruct (bool_decide (cartItemsWithDetails st = [])) eqn:Hitems;
    simpl; [by eexists|].
  apply bool_decide_eq_false_1 in Hitems.
  destruct Hrej as [?|[?|[?|[?|?]]]]; simpl in *; congruence.
Qed.

Lemma stored_ext {A} `{!JSON A} (key : string) (fallback : A) (st st' : App) :
  localStorage st' = localStorage st ->
  stored key fallback st' = stored key fallback st.
Proof. intros Hls. by rewrite !stored_eq, Hls. Qed.

Lemma loadOrders_frame (st st' : App) (l : list Order.t) :
  localStorage st' = localStorage st -> currentUser st' = currentUser st ->
  loadOrders st = (Normal l, st) -> loadOrders st' = (Normal l, st').
Proof.
  intros Hls Hcu. rewrite !loadOrders_run, Hcu, (stored_ext _ _ st st' Hls).
  by intros [= ->].
Qed.

Lemma rejected_frame (e : SubmitEvent) (st : App) :
  truthy (currentUser st) = false \/ truthy (csrfInput st) = false
  \/ csrfInput st <> csrfToken st \/ checkValidity e = false
  \/ (cartTotals st).1 = [] ->
  let st' := exec (checkoutForm_submit e) st in
  localStorage st' = localStorage st /\ cart st' = cart st
  /\ currentUser st' = currentUser st /\ users st' = users st.
Proof.
  intros Hrej. destruct (submit_rejected e st Hrej) as [notice Hst'].
  cbv zeta. rewrite Hst'. by destruct (_ && _).
Qed.

(** C1. Checkout submission.  The handler always completes.  With an
    identity set, a submitted token that is present and equal to the
    expected one, a valid form and a non-empty catalog join of the cart, it
    records exactly one order, the one built from the totals and the
    sanitized shipping fields, at the head of the current user's list (so the
    list stays newest first, other users' lists are as before), and then
    empties the cart, in memory and in storage.  When one of these
    preconditions fails, nothing is written to storage, the order lists are
    as before and the cart is unchanged. *)
Theorem checkout_submission (e : SubmitEvent) (st : App) :
  let st' := exec (checkoutForm_submit e) st in
  let order := buildOrder e (cartTotals st).1 (cartTotals st).2 in
  let allOrders := stored ORDERS (∅ : gmap string (list Order.t)) st in
  checkoutForm_submit e st = (Normal tt, st')
  /\ (truthy (currentUser st) = true ->
      truthy (csrfInput st) = true -> csrfInput st = csrfToken st ->
      checkValidity e = true ->
      (cartTotals st).1 <> [] ->
      exists u,
        currentUser st = Some u
        /\ localStorage st'
           = <[CART := JSON_stringify (∅ : gmap string Z)]>
               (<[ORDERS := JSON_stringify
                              (<[u := order :: orEmpty (allOrders !! u)]> allOrders)]>
                  (localStorage st))
        /\ cart st' = ∅
        /\ (serializable (<[u := order :: orEmpty (allOrders !! u)]> allOrders) ->
            forall l, loadOrders st = (Normal l, st) ->
                      loadOrders st' = (Normal (order :: l), st')))
  /\ (truthy (currentUser st) = false \/ truthy (csrfInput st) = false
      \/ csrfInput st <> csrfToken st \/ checkValidity e = false
      \/ (cartTotals st).1 = [] ->
      localStorage st' = localStorage st
      /\ cart st' = cart st
      /\ forall l, loadOrders st = (Normal l, st) -> loadOrders st' = (Normal l, st')).
Proof.
  cbv zeta. split; [|split].
  - unfold exec. by rewrite checkoutForm_submit_run.
  - intros (u & Hcu & Hu)%truthy_identity Htok Heq Hvalid Hitems.
    exists u. split; [done|].
    rewrite (submit_accepted e st u) by done. simpl.
    split; [done|]. split; [done|].
    intros Hser l. rewrite !loadOrders_run, Hcu, Hu. simpl. rewrite Hu.
    intros [= <-]. f_equal. f_equal.
    rewrite (stored_eq ORDERS). simpl.
    rewrite lookup_insert_ne by done. rewrite lookup_insert_eq.
    rewrite (serializable_truthy _ Hser), Hser.
    by rewrite lookup_insert_eq.
  - intros Hrej. destruct (rejected_frame e st Hrej) as (Hls & Hc & Hcu & _).
    split; [done|]. split; [done|]. intros l. by apply loadOrders_frame.
Qed.







(** C10. Order self-consistency: the order that a successful checkout
    records (the head of the current user's list in the stored mapping) has
    a total equal to the sum over its items of [price * qty]; each of its
    items is a catalog product, with the catalog's name and price and with
    the quantity the cart held at submission; every catalog product in the
    cart has its item; and there is at least one item. *)
Theorem recorded_order_is_consistent (e : SubmitEvent) (st : App) :
  truthy (currentUser st) = true ->
  truthy (csrfInput st) = true -> csrfInput st = csrfToken st ->
  checkValidity e = true ->
  (cartTotals st).1 <> [] ->
  let order := buildOrder e (cartTotals st).1 (cartTotals st).2 in
  let allOrders := stored ORDERS (∅ : gmap string (list Order.t)) st in
  (exists u,
     currentUser st = Some u
     /\ localStorage (exec (checkoutForm_submit e) st) !! ORDERS
        = Some (JSON_stringify (<[u := order :: orEmpty (allOrders !! u)]> allOrders)))
  /\ Order.total order
     = sumZ ((fun it => OrderItem.price it * OrderItem.qty it) <$> Order.items order)
  /\ Forall
       (fun it =>
          exists p, p ∈ PRODUCTS /\ Product.id p = OrderItem.id it
                    /\ Product.name p = OrderItem.name it
                    /\ Product.price p = OrderItem.price it
                    /\ cart st !! OrderItem.id it = Some (OrderItem.qty it))
       (Order.items order)
  /\ (forall p qty,
        p ∈ PRODUCTS -> cart st !! Product.id p = Some qty ->
        OrderItem.mk (Product.id p) (Product.name p) qty (Product.price p)
        ∈ Order.items order)
  /\ Order.items order <> [].
Proof.
  intros (u & Hcu & Hu)%truthy_identity Htok Heq Hvalid Hitems. cbv zeta.
  split; [|split; [|split; [|split]]].
  - exists u. split; [done|].
    rewrite (submit_accepted e st u) by done. simpl.
    rewrite lookup_insert_ne by done. apply lookup_insert_eq.
  - simpl. rewrite foldl_sum, Z.add_0_l. f_equal.
    rewrite <- list_fmap_compose. apply Forall_fmap_ext_1, Forall_forall.
    by intros item (p & qty & _ & _ & ->)%cartItems_elem.
  - simpl. apply Forall_fmap, Forall_forall.
    intros item (p & qty & Hp & Hq & ->)%cartItems_elem. by exists p.
  - intros p qty Hp Hq. simpl.
    apply (list_elem_of_fmap_2' _ _ (itemOf p qty)); [|done].
    apply cartItems_elem. by exists p, qty.
  - simpl. simpl in Hitems. by destruct (cartItemsWithDetails st).
Qed.

End Properties.

(** * Further properties of the script *)

Section Further.

Context `{!JSON (option string)}.
Context `{!JSON (gmap string User.t)}.
Context `{!JSON (gmap string Z)}.
Context `{!JSON (gmap string (list Order.t))}.

Local Notation "'normalize' email" := (toLowerCase (trim email)) (at level 10, email at level 9, only parsing).

(** ** Storage: overwriting and independent keys *)

Lemma stored_lookup_ext {A} `{!JSON A} (key : string) (fallback : A) (st st' : App) :
  localStorage st' !! key = localStorage st !! key ->
  stored key fallback st' = stored key fallback st.
Proof. intros Hk. by rewrite !stored_eq, Hk. Qed.

(** X1. The last write wins and keys do not interfere: saving twice under a
    key leaves the storage as the second save alone would, and [loadState]
    then returns the second value (if it survives the codec); what
    [loadState] returns for any other key is what it returned before. *)
Theorem saveState_last_write_wins {A B} `{!JSON A} `{!JSON B}
    (key key' : string) (v1 v2 fallback : A) (fallback' : B) (st : App) :
  let st2 := exec (saveState key v2) (exec (saveState key v1) st) in
  st2 = exec (saveState key v2) st
  /\ (serializable v2 -> loadState key fallback st2 = (Normal v2, st2))
  /\ (key <> key' ->
      loadState key' fallback' st2
      = (Normal (stored key' fallback' st), st2)).
Proof.
  cbv zeta. split; [|split].
  - unfold exec. rewrite !saveState_run. simpl. unfold set_localStorage. simpl.
    by rewrite insert_insert_eq.
  - intros Hv. rewrite loadState_run. f_equal. f_equal.
    apply (stored_insert key v2 fallback
             (<[key := JSON_stringify v1]> (localStorage st))); done.
  - intros Hne. rewrite loadState_run. f_equal. f_equal.
    apply stored_lookup_ext. unfold exec. rewrite !saveState_run. simpl.
    by rewrite !lookup_insert_ne.
Qed.

(** ** Start-up and the handlers, as state transformers *)

Lemma main_run (array : list Z) (st : App) :
  main array st
  = (Normal tt,
     mkApp (localStorage st) (stored USER (None : option string) st)
       (stored USERS (∅ : gmap string User.t) st) (generateCsrfToken array)
       (stored CART (∅ : gmap string Z) st) (generateCsrfToken array)
       (alerts st)).
Proof.
  unfold main.
  unfold mbind at 1, JS_bind. rewrite loadState_run.
  unfold mbind at 1, JS_bind, modify. 
  unfold mbind at 1, JS_bind. rewrite loadState_run.
  unfold mbind at 1, JS_bind.
  unfold mbind at 1, JS_bind.
  unfold mbind at 1, JS_bind. rewrite loadState_run.
  unfold mbind at 1, JS_bind.
  unfold mbind at 1, JS_bind, gets. unfold set_csrfInput. simpl.
  rewrite (stored_ext USERS _ st) by done.
  rewrite (stored_ext CART _ st) by done.
  done.
Qed.

Lemma page_eq (storage : gmap string string) (array : list Z) :
  let st0 := mkApp storage None ∅ "" ∅ "" [] in
  page storage array
  = mkApp storage (stored USER (None : option string) st0)
      (stored USERS (∅ : gmap string User.t) st0) (generateCsrfToken array)
      (stored CART (∅ : gmap string Z) st0) (generateCsrfToken array) [].
Proof. cbv zeta. unfold page, exec. by rewrite main_run. Qed.

(** The result of a handler, with the exception case of the two form
    handlers folded in. *)
Lemma handle_run (ev : Event) (st : App) :
  handle ev st = (Normal tt, exec (handle ev) st).
Proof.
  unfold exec. destruct ev as [id|id inc|array|e|email pw|email pw|confirmed]; simpl.
  - done.
  - destruct inc; by rewrite updateCartItem_run.
  - by rewrite btnCheckout_click_run.
  - by rewrite checkoutForm_submit_run.
  - rewrite loginForm_submit_run, loginUser_run.
    destruct (users st !! normalize email) as [u|]; [|done].
    destruct (bool_decide _); [|done]. by rewrite setCurrentUser_run.
  - rewrite registerForm_submit_run, registerUser_run.
    by destruct (users st !! normalize email).
  - by destruct confirmed.
Qed.

(** ** The form field carries the expected token *)

Lemma toString16_truthy (n : Z) : truthy (toString16 n) = true.
Proof.
  unfold toString16. destruct (n <? 0); [done|].
  unfold NilZero.string_of_uint. by destruct (N.to_hex_uint (Z.to_N n)).
Qed.

Lemma generateCsrfToken_truthy (array : list Z) :
  array <> [] -> truthy (generateCsrfToken array) = true.
Proof.
  destruct array as [|n array]; [done|]. intros _.
  unfold generateCsrfToken. simpl.
  pose proof (toString16_truthy n) as Hn.
  by destruct (toString16 n).
Qed.

Lemma handle_token_fields (ev : Event) (st : App) :
  draws_words ev ->
  csrfInput st = csrfToken st /\ truthy (csrfToken st) = true ->
  let st' := exec (handle ev) st in
  csrfInput st' = csrfToken st' /\ truthy (csrfToken st') = true.
Proof.
  intros Hev [Heq Htok]. cbv zeta.
  destruct ev as [id|id inc|array|e|email pw|email pw|confirmed]; simpl in *.
  - done.
  - unfold exec. destruct inc; rewrite updateCartItem_run; simpl;
      repeat case_match; done.
  - unfold exec at 1 2 3. rewrite btnCheckout_click_run. simpl.
    case_match; [done|]. simpl. split; [done|].
    by apply generateCsrfToken_truthy.
  - unfold exec at 1 2 3. rewrite checkoutForm_submit_run. simpl.
    unfold exec. rewrite saveOrder_run. simpl.
    pose proof (generateCsrfToken_truthy _ Hev).
    repeat case_match; done.
  - unfold exec. rewrite loginForm_submit_run, loginUser_run.
    destruct (users st !! normalize email) as [u|]; [|done].
    destruct (bool_decide _); [|done]. by rewrite setCurrentUser_run.
  - unfold exec. rewrite registerForm_submit_run, registerUser_run.
    by destruct (users st !! normalize email).
  - by destruct confirmed.
Qed.

(** X3. Once the hidden form field holds the expected token and that token
    is not empty (the state in which the [DOMContentLoaded] listener leaves
    the page when it runs to its end), this stays so through any sequence
    of events.  So a submission on a page whose field nobody changed from
    outside passes the token check: it is never answered "Session
    expired". *)
Theorem form_field_carries_token
    (evs : list Event) (e : SubmitEvent) (st0 : App) :
  csrfInput st0 = csrfToken st0 -> truthy (csrfToken st0) = true ->
  Forall draws_words evs ->
  let st := run evs st0 in
  csrfInput st = csrfToken st
  /\ truthy (csrfToken st) = true
  /\ head (alerts (exec (checkoutForm_submit e) st))
     <> Some "Session expired. Please try again.".
Proof.
  intros Heq0 Htok0 Hevs. cbv zeta.
  assert (csrfInput (run evs st0) = csrfToken (run evs st0)
          /\ truthy (csrfToken (run evs st0)) = true) as [Heq Htok].
  { pose proof (conj Heq0 Htok0) as Hinit. clear Heq0 Htok0.
    revert Hinit. generalize st0.
    induction Hevs as [|ev evs Hev Hevs IH]; intros st Hst; [done|].
    simpl. apply IH. by apply handle_token_fields. }
  split; [done|]. split; [done|].
  unfold exec. rewrite checkoutForm_submit_run. simpl.
  rewrite Heq, Htok. rewrite bool_decide_eq_true_2 by done. simpl.
  repeat case_match; done.
Qed.

(** ** What is persisted is what a reload restores *)

Lemma stored_written {A} `{!JSON A} (key : string) (v fallback : A) (st : App) :
  localStorage st !! key = Some (JSON_stringify v) ->
  serializable v ->
  stored key fallback st = v.
Proof.
  intros Hk Hv. rewrite stored_eq, Hk, (serializable_truthy v Hv).
  by rewrite Hv.
Qed.

Ltac stored_kept H :=
  erewrite stored_lookup_ext; [exact H | simpl; by rewrite ?lookup_insert_ne by done].

Ltac stored_new :=
  apply stored_written;
  [simpl; rewrite ?lookup_insert_ne by done; apply lookup_insert_eq | assumption].

(** A submission is either accepted, and ends in the state of
    [submit_accepted], or rejected, and ends in the state of
    [submit_rejected]. *)
Lemma submit_cases (e : SubmitEvent) (st : App) :
  (exists u,
     currentUser st = Some u /\ truthy u = true
     /\ truthy (csrfInput st) = true /\ csrfInput st = csrfToken st
     /\ checkValidity e = true /\ (cartTotals st).1 <> [])
  \/ (truthy (currentUser st) = false \/ truthy (csrfInput st) = false
      \/ csrfInput st <> csrfToken st \/ checkValidity e = false
      \/ (cartTotals st).1 = []).
Proof.
  destruct (truthy (currentUser st)) eqn:Hcu; [|by right; left].
  destruct (truthy (csrfInput st)) eqn:Htok; [|by right; right; left].
  destruct (decide (csrfInput st = csrfToken st)) as [Heq|Hne];
    [|by right; right; right; left].
  destruct (checkValidity e) eqn:Hvalid; [|by right; right; right; right; left].
  destruct (decide ((cartTotals st).1 = [])) as [Hitems|Hitems];
    [by right; right; right; right; right|].
  left. apply truthy_identity in Hcu as (u & Hcu & Hu). by exists u.
Qed.

Lemma page_synced (storage : gmap string string) (array : list Z) :
  synced (page storage array).
Proof.
  rewrite page_eq. unfold synced. simpl.
  split; [|split]; by apply stored_ext.
Qed.

Lemma handle_synced (ev : Event) (st : App) :
  synced st ->
  let st' := exec (handle ev) st in
  serializable (currentUser st') -> serializable (users st') ->
  serializable (cart st') ->
  synced st'.
Proof.
  intros (Hu & Hus & Hc). cbv zeta.
  destruct ev as [id|id inc|array|e|email pw|email pw|confirmed]; simpl.
  - unfold exec. rewrite addToCart_run. simpl. intros Su Sus Sc.
    split; [stored_kept Hu | split; [stored_kept Hus | stored_new]].
  - unfold exec.
    destruct inc; rewrite updateCartItem_run; simpl;
      (destruct (cart st !! id) as [q|]; [|done]);
      (destruct (truthy q); [|done]); simpl;
      destruct (_ <=? 0); simpl; intros Su Sus Sc;
      (split; [stored_kept Hu | split; [stored_kept Hus | stored_new]]).
  - unfold exec at 1 2 3 4. rewrite btnCheckout_click_run. simpl.
    case_match; simpl; intros Su Sus Sc;
      (split; [stored_kept Hu | split; [stored_kept Hus | stored_kept Hc]]).
  - destruct (submit_cases e st) as [(u & Hcu & Hut & Htok & Heq & Hv & Hi)|Hrej].
    + rewrite (submit_accepted e st u) by done. simpl. intros Su Sus Sc.
      split; [|split; [stored_kept Hus | stored_new]].
      rewrite <- Hcu. stored_kept Hu.
    + destruct (submit_rejected e st Hrej) as [notice ->].
      destruct (_ && _); simpl; intros Su Sus Sc;
        (split; [stored_kept Hu | split; [stored_kept Hus | stored_kept Hc]]).
  - unfold exec. rewrite loginForm_submit_run, loginUser_run.
    destruct (users st !! normalize email) as [u|]; simpl.
    + destruct (bool_decide _); simpl.
      * intros Su Sus Sc.
        split; [stored_new | split; [stored_kept Hus | stored_kept Hc]].
      * intros Su Sus Sc.
        split; [stored_kept Hu | split; [stored_kept Hus | stored_kept Hc]].
    + intros Su Sus Sc.
      split; [stored_kept Hu | split; [stored_kept Hus | stored_kept Hc]].
  - unfold exec. rewrite registerForm_submit_run, registerUser_run.
    destruct (users st !! normalize email); simpl; intros Su Sus Sc.
    + split; [stored_kept Hu | split; [stored_kept Hus | stored_kept Hc]].
    + split; [stored_new | split; [stored_new | stored_kept Hc]].
  - destruct confirmed; simpl; intros Su Sus Sc.
    + split; [stored_new | split; [stored_kept Hus | stored_kept Hc]].
    + done.
Qed.

Lemma run_synced (evs : list Event) (st : App) :
  synced st -> persistable evs st -> synced (run evs st).
Proof.
  revert st. induction evs as [|ev evs IH]; intros st Hst Hp; [done|].
  destruct Hp as ((Su & Sus & Sc) & Hp). simpl. apply IH; [|done].
  by apply handle_synced.
Qed.

(** X4. Reloading the page after any sequence of events restores the session:
    the identity, the user directory and the cart read back from storage
    are the ones the page had, provided the values written on the way
    survive the codec. *)
Theorem reload_restores_session
    (storage : gmap string string) (array array' : list Z) (evs : list Event) :
  persistable evs (page storage array) ->
  let st := run evs (page storage array) in
  let st' := page (localStorage st) array' in
  currentUser st' = currentUser st /\ users st' = users st
  /\ cart st' = cart st /\ localStorage st' = localStorage st.
Proof.
  intros Hp. cbv zeta.
  destruct (run_synced evs _ (page_synced storage array) Hp) as (Hu & Hus & Hc).
  rewrite page_eq. simpl.
  rewrite <- Hu, <- Hus, <- Hc.
  split; [|split; [|split]]; try done; by apply stored_ext.
Qed.

(** ** Orders and identity *)

(** X5. Without an identity (nobody logged in, or the empty identity) no order
    is shown and none is saved, whatever the storage holds. *)
Theorem orders_need_identity (st : App) (order : Order.t) :
  truthy (currentUser st) = false ->
  loadOrders st = (Normal [], st) /\ saveOrder order st = (Normal tt, st).
Proof.
  intros Hcu. rewrite loadOrders_run, saveOrder_run.
  destruct (currentUser st) as [u|]; [|done].
  change (truthy u = false) in Hcu. by rewrite Hcu.
Qed.

Lemma auth_frame (ev : Event) (st : App) :
  is_auth ev ->
  let st' := exec (handle ev) st in
  cart st' = cart st
  /\ localStorage st' !! CART = localStorage st !! CART
  /\ localStorage st' !! ORDERS = localStorage st !! ORDERS.
Proof.
  intros Hev. cbv zeta.
  destruct ev as [id|id inc|array|e|email pw|email pw|confirmed]; try done; simpl.
  - unfold exec. rewrite loginForm_submit_run, loginUser_run.
    destruct (users st !! normalize email) as [u|]; [|done].
    destruct (bool_decide _); [|done]. rewrite setCurrentUser_run. simpl.
    by rewrite !lookup_insert_ne.
  - unfold exec. rewrite registerForm_submit_run, registerUser_run.
    destruct (users st !! normalize email); [done|]. simpl.
    by rewrite !lookup_insert_ne.
  - destruct confirmed; [|done]. simpl. by rewrite !lookup_insert_ne.
Qed.

(** X6. The cart belongs to the page, not to the user: no sequence of logins,
    registrations and logouts changes the cart or the stored cart blob, so
    the next user finds the cart the previous one left. *)
Theorem cart_is_shared_between_users (evs : list Event) (st : App) :
  Forall is_auth evs ->
  cart (run evs st) = cart st
  /\ localStorage (run evs st) !! CART = localStorage st !! CART
  /\ cartTotals (run evs st) = cartTotals st.
Proof.
  intros Hevs.
  assert (cart (run evs st) = cart st
          /\ localStorage (run evs st) !! CART = localStorage st !! CART)
    as [Hc Hs].
  { revert st. induction Hevs as [|ev evs Hev Hevs IH]; intros st; [done|].
    simpl. destruct (auth_frame ev st Hev) as (Hc & Hs & _).
    destruct (IH (exec (handle ev) st)) as [Hc' Hs']. split; congruence. }
  split; [done|]. split; [done|].
  unfold cartTotals, cartItemsWithDetails. by rewrite Hc.
Qed.

(** X7. Orders survive a logout: after logging out and logging in again under
    the same normalized email, [loadOrders] returns the list it returned
    before. *)
Theorem orders_survive_logout
    (st st2 : App) (u email password : string) (l : list Order.t) :
  currentUser st = Some u -> normalize email = u ->
  loadOrders st = (Normal l, st) ->
  loginUser email password (exec logoutUser st) = (Normal tt, st2) ->
  loadOrders st2 = (Normal l, st2) /\ cart st2 = cart st.
Proof.
  intros Hcu Hn Hl. rewrite loginUser_run. unfold exec. rewrite logoutUser_run.
  simpl. destruct (users st !! normalize email) as [user|]; [|done].
  destruct (bool_decide _); [|done]. rewrite setCurrentUser_run.
  intros [= <-]. split; [|done].
  revert Hl. rewrite !loadOrders_run, Hcu, Hn. simpl.
  intros [= <-]. f_equal. f_equal.
  erewrite (stored_lookup_ext ORDERS); [done|].
  simpl. by rewrite !lookup_insert_ne.
Qed.

(** X8. Orders are kept per user: after [u] has placed an order, whoever logs
    in under another normalized email is shown exactly the list stored
    under that email before. *)
Theorem orders_are_per_user
    (e : SubmitEvent) (st st2 : App) (u email password : string) :
  currentUser st = Some u -> truthy u = true ->
  truthy (csrfInput st) = true -> csrfInput st = csrfToken st ->
  checkValidity e = true -> (cartTotals st).1 <> [] ->
  let allOrders := stored ORDERS (∅ : gmap string (list Order.t)) st in
  let order := buildOrder e (cartTotals st).1 (cartTotals st).2 in
  serializable (<[u := order :: orEmpty (allOrders !! u)]> allOrders) ->
  normalize email <> u ->
  loginUser email password (exec (checkoutForm_submit e) st) = (Normal tt, st2) ->
  loadOrders st2
  = (Normal (if truthy (normalize email)
             then orEmpty (allOrders !! normalize email) else []), st2).
Proof.
  intros Hcu Hu Htok Heq Hv Hi. cbv zeta. intros Hser Hne.
  rewrite (submit_accepted e st u) by done.
  rewrite loginUser_run. simpl.
  destruct (users st !! normalize email) as [user|]; [|done].
  destruct (bool_decide _); [|done]. rewrite setCurrentUser_run.
  intros [= <-]. rewrite loadOrders_run. simpl. f_equal. f_equal.
  destruct (truthy (normalize email)); [|done]. f_equal.
  erewrite (stored_written ORDERS); [| |exact Hser].
  - by rewrite lookup_insert_ne.
  - simpl. rewrite !lookup_insert_ne by done. apply lookup_insert_eq.
Qed.

(** X9. A double submission records one order: once a submission has been
    accepted the cart is empty, so any further submission is rejected and
    writes nothing, until something is put in the cart again. *)
Theorem double_submit_records_once (e e' : SubmitEvent) (st : App) :
  truthy (currentUser st) = true ->
  truthy (csrfInput st) = true -> csrfInput st = csrfToken st ->
  checkValidity e = true -> (cartTotals st).1 <> [] ->
  let st1 := exec (checkoutForm_submit e) st in
  let st2 := exec (checkoutForm_submit e') st1 in
  cartTotals st1 = ([], 0)
  /\ localStorage st2 = localStorage st1
  /\ cart st2 = ∅.
Proof.
  intros (u & Hcu & Hu)%truthy_identity Htok Heq Hv Hi. cbv zeta.
  assert (cartTotals (exec (checkoutForm_submit e) st) = ([], 0)) as Hempty.
  { rewrite (submit_accepted e st u) by done.
    unfold cartTotals, cartItemsWithDetails. simpl.
    by rewrite map_to_list_empty. }
  split; [done|].
  destruct (rejected_frame e' (exec (checkoutForm_submit e) st))
    as (Hls & Hc & _).
  { right; right; right; right. by rewrite Hempty. }
  split; [done|]. rewrite Hc. by rewrite (submit_accepted e st u).
Qed.

(** ** Cart arithmetic *)

Lemma sumZ_cons (x : Z) (l : list Z) : sumZ (x :: l) = x + sumZ l.
Proof. reflexivity. Qed.

Lemma sumZ_app (l1 l2 : list Z) : sumZ (l1 ++ l2) = sumZ l1 + sumZ l2.
Proof.
  induction l1 as [|x l1 IH]; unfold sumZ in *; simpl; [done|].
  rewrite IH. lia.
Qed.

Lemma sumZ_perm (l1 l2 : list Z) : l1 ≡ₚ l2 -> sumZ l1 = sumZ l2.
Proof.
  induction 1 as [|x l1 l2 _ IH|x y l|l1 l2 l3 _ IH1 _ IH2];
    unfold sumZ in *; simpl; lia.
Qed.

(** Sums over the entries of a dictionary, entry by entry. *)
Lemma sum_entries_insert (g : string * Z -> Z) (c : gmap string Z) (k : string) (v : Z) :
  sumZ (g <$> map_to_list (<[k := v]> c))
  = sumZ (g <$> map_to_list c)
    - match c !! k with Some q => g (k, q) | None => 0 end
    + g (k, v).
Proof.
  assert (forall x, sumZ (g <$> map_to_list (<[k := x]> (delete k c)))
                    = g (k, x) + sumZ (g <$> map_to_list (delete k c))) as Hins.
  { intros x. rewrite (sumZ_perm _ (g <$> (k, x) :: map_to_list (delete k c))).
    - done.
    - apply fmap_Permutation, map_to_list_insert, lookup_delete_eq. }
  rewrite <- (insert_delete_eq c k v), Hins.
  destruct (c !! k) as [q|] eqn:E.
  - rewrite <- (insert_delete_id c k q E) at 2. rewrite Hins. lia.
  - rewrite (delete_id c k E). lia.
Qed.

Lemma sum_entries_delete (g : string * Z -> Z) (c : gmap string Z) (k : string) :
  sumZ (g <$> map_to_list (delete k c))
  = sumZ (g <$> map_to_list c)
    - match c !! k with Some q => g (k, q) | None => 0 end.
Proof.
  destruct (c !! k) as [q|] eqn:E.
  - rewrite <- (insert_delete_id c k q E) at 2.
    rewrite sum_entries_insert, lookup_delete_eq. lia.
  - rewrite (delete_id c k E). lia.
Qed.

Lemma cartCount_sum (st : App) :
  cartCount st = sumZ (snd <$> map_to_list (cart st)).
Proof. unfold cartCount. by rewrite foldl_sum with (f := fun q : Z => q), list_fmap_id. Qed.

Lemma withDetails_lineTotal (l : list (string * Z)) :
  sumZ (CartItem.lineTotal <$> omap withDetails l)
  = sumZ ((fun entry => priceOf entry.1 * entry.2) <$> l).
Proof.
  induction l as [|[id q] l IH]; [done|].
  rewrite fmap_cons, sumZ_cons, <- IH.
  change (omap withDetails ((id, q) :: l))
    with (match withDetails (id, q) with
          | Some item => item :: omap withDetails l
          | None => omap withDetails l
          end).
  unfold priceOf, withDetails at 1. fold (findProduct id). simpl.
  destruct (findProduct id) as [p|]; [by rewrite fmap_cons, sumZ_cons|lia].
Qed.

Lemma subtotal_sum (st : App) :
  (cartTotals st).2
  = sumZ ((fun entry => priceOf entry.1 * entry.2) <$> map_to_list (cart st)).
Proof.
  unfold cartTotals, cartItemsWithDetails. simpl.
  by rewrite foldl_sum, withDetails_lineTotal.
Qed.

(** X10. Adding a product raises the badge count by exactly one and the subtotal
    by exactly the catalog price of the product (by nothing for an id the
    catalog does not have), whatever the cart held before. *)
Theorem addToCart_raises_totals (productId : string) (st : App) :
  let st' := exec (addToCart productId) st in
  cartCount st' = cartCount st + 1
  /\ (cartTotals st').2 = (cartTotals st).2 + priceOf productId
  /\ (forall p, p ∈ PRODUCTS -> Product.id p = productId ->
                (cartTotals st').2 = (cartTotals st).2 + Product.price p).
Proof.
  cbv zeta.
  assert ((cartTotals (exec (addToCart productId) st)).2
          = (cartTotals st).2 + priceOf productId) as Hsub.
  { rewrite !subtotal_sum. unfold exec. rewrite addToCart_run. simpl.
    rewrite sum_entries_insert. simpl. unfold orZero.
    destruct (cart st !! productId) as [q|]; [|lia].
    unfold truthy, Z_truthy. destruct (Z.eqb_spec q 0); simpl; [subst|]; lia. }
  split; [|split; [done|]].
  - rewrite !cartCount_sum. unfold exec. rewrite addToCart_run. simpl.
    rewrite sum_entries_insert. simpl. unfold orZero.
    destruct (cart st !! productId) as [q|]; [|lia].
    unfold truthy, Z_truthy. destruct (Z.eqb_spec q 0); simpl; [subst|]; lia.
  - intros p Hp Hid. rewrite Hsub. unfold priceOf.
    assert (findProduct productId = Some p) as -> by by apply findProduct_Some.
    done.
Qed.

Lemma updateCartItem_writes_cart (productId : string) (delta q : Z) (st : App) :
  cart st !! productId = Some q -> q <> 0 ->
  let st' := exec (updateCartItem productId delta) st in
  localStorage st' !! CART = Some (JSON_stringify (cart st')).
Proof.
  intros Hq Hq0. cbv zeta. unfold exec. rewrite updateCartItem_run, Hq.
  unfold truthy, Z_truthy. destruct (Z.eqb_spec q 0); [done|]. simpl.
  destruct (q + delta <=? 0); simpl; apply lookup_insert_eq.
Qed.

(** X11. On a cart of positive quantities, [updateCartItem(id, -1)] undoes
    [addToCart(id)]: the cart is the one before the two calls, and the
    stored cart blob is its serialization. *)
Theorem decrement_undoes_add (productId : string) (st : App) :
  cart_ok (cart st) ->
  let st' := exec (updateCartItem productId (-1)) (exec (addToCart productId) st) in
  cart st' = cart st
  /\ localStorage st' !! CART = Some (JSON_stringify (cart st)).
Proof.
  intros Hok. cbv zeta.
  assert (0 < orZero (cart st !! productId) + 1) as Hpos.
  { unfold orZero. destruct (cart st !! productId) as [q|] eqn:E; [|lia].
    pose proof (Hok _ _ E) as Hq. simpl in Hq. destruct (truthy q); lia. }
  assert (cart (exec (updateCartItem productId (-1)) (exec (addToCart productId) st))
          = cart st) as Hc.
  { unfold exec. rewrite updateCartItem_run, addToCart_run. simpl.
    rewrite lookup_insert_eq. unfold orZero in *.
    destruct (cart st !! productId) as [q|] eqn:E.
    - pose proof (Hok _ _ E) as Hq. simpl in Hq.
      unfold truthy, Z_truthy.
      destruct (Z.eqb_spec q 0); [lia|]. simpl.
      destruct (Z.eqb_spec (q + 1) 0); [lia|]. simpl.
      destruct (Z.leb_spec (q + 1 + -1) 0); [lia|]. simpl.
      rewrite insert_insert_eq. replace (q + 1 + -1) with q by lia.
      by apply insert_id.
    - simpl. by apply delete_insert_id. }
  split; [done|].
  rewrite (updateCartItem_writes_cart productId (-1)
             (orZero (cart st !! productId) + 1)).
  - by rewrite Hc.
  - unfold exec. rewrite addToCart_run. simpl. apply lookup_insert_eq.
  - lia.
Qed.

(** X12. Two quantity changes on a present product amount to one change by the
    sum of the deltas, as long as the first leaves the product in the cart;
    the whole state, storage included, is the same. *)
Theorem updateCartItem_composes (productId : string) (d1 d2 q : Z) (st : App) :
  cart st !! productId = Some q -> q <> 0 -> 0 < q + d1 ->
  exec (updateCartItem productId d2) (exec (updateCartItem productId d1) st)
  = exec (updateCartItem productId (d1 + d2)) st.
Proof.
  intros Hq Hq0 Hd1. unfold exec.
  rewrite (updateCartItem_run productId d1), (updateCartItem_run productId (d1 + d2)).
  rewrite Hq. unfold truthy, Z_truthy.
  destruct (Z.eqb_spec q 0); [done|]. simpl.
  destruct (Z.leb_spec (q + d1) 0); [lia|]. simpl.
  rewrite updateCartItem_run. simpl. rewrite lookup_insert_eq.
  unfold truthy, Z_truthy.
  destruct (Z.eqb_spec (q + d1) 0); [lia|]. simpl.
  replace (q + d1 + d2) with (q + (d1 + d2)) by lia.
  destruct (q + (d1 + d2) <=? 0); simpl; unfold set_localStorage, set_cart; simpl.
  - by rewrite delete_insert_eq, insert_insert_eq.
  - by rewrite !insert_insert_eq.
Qed.

(** X13. A cart of positive quantities with at least one catalog product has a
    positive subtotal, and every line has a positive quantity and a
    positive line total; so the order built from it has a positive total. *)
Theorem totals_are_positive (e : SubmitEvent) (st : App) :
  cart_ok (cart st) -> (cartTotals st).1 <> [] ->
  Forall (fun item => 0 < CartItem.qty item /\ 0 < CartItem.lineTotal item)
    (cartTotals st).1
  /\ 0 < (cartTotals st).2
  /\ 0 < Order.total (buildOrder e (cartTotals st).1 (cartTotals st).2).
Proof.
  intros Hok Hitems.
  assert (Forall (fun p => 0 < Product.price p) PRODUCTS) as Hprices.
  { unfold PRODUCTS. repeat constructor; simpl; lia. }
  assert (Forall (fun item => 0 < CartItem.qty item /\ 0 < CartItem.lineTotal item)
            (cartTotals st).1) as Hall.
  { apply Forall_forall. intros item (p & qty & Hp & Hq & ->)%cartItems_elem.
    pose proof (Hok _ _ Hq) as Hqty. simpl in Hqty.
    rewrite Forall_forall in Hprices. specialize (Hprices p Hp).
    simpl. split; [done|]. nia. }
  split; [done|].
  assert (0 < (cartTotals st).2) as Hsub.
  { unfold cartTotals in *. simpl in *. rewrite foldl_sum.
    destruct (cartItemsWithDetails st) as [|item items]; [done|].
    apply Forall_cons in Hall as [[_ Hitem] Hrest].
    rewrite fmap_cons, sumZ_cons.
    assert (0 <= sumZ (CartItem.lineTotal <$> items)); [|lia].
    clear -Hrest. induction Hrest as [|x l [_ Hx] _ IH]; [done|].
    rewrite fmap_cons, sumZ_cons. lia. }
  done.
Qed.

(** ** Escaping and sanitizing *)

Lemma append_assoc (s1 s2 s3 : string) :
  (s1 +:+ s2) +:+ s3 = s1 +:+ (s2 +:+ s3).
Proof.
  induction s1 as [|c s1 IH]; [done|].
  change (String c ((s1 +:+ s2) +:+ s3) = String c (s1 +:+ (s2 +:+ s3))).
  by rewrite IH.
Qed.

Lemma length_append (s1 s2 : string) :
  String.length (s1 +:+ s2) = (String.length s1 + String.length s2)%nat.
Proof.
  induction s1 as [|c s1 IH]; [done|].
  change (S (String.length (s1 +:+ s2)) = S (String.length s1 + String.length s2)).
  by rewrite IH.
Qed.

Lemma replaceChar_app (c : ascii) (by_ s1 s2 : string) :
  replaceChar c by_ (s1 +:+ s2) = replaceChar c by_ s1 +:+ replaceChar c by_ s2.
Proof.
  induction s1 as [|x s1 IH]; simpl; [done|].
  rewrite IH. destruct (decide (x = c)); simpl; [|done].
  by rewrite append_assoc.
Qed.

Lemma escapeHTML_app (s1 s2 : string) :
  escapeHTML (s1 +:+ s2) = escapeHTML s1 +:+ escapeHTML s2.
Proof. unfold escapeHTML. by rewrite !replaceChar_app. Qed.

Lemma escapeHTML_char (c : ascii) :
  escapeHTML (String c EmptyString) = entity c.
Proof.
  unfold entity. repeat case_decide; subst; try reflexivity.
  unfold escapeHTML. simpl.
  repeat (rewrite decide_False by done; simpl). done.
Qed.

Lemma escapeHTML_cons (c : ascii) (s : string) :
  escapeHTML (String c s) = entity c +:+ escapeHTML s.
Proof.
  change (String c s) with (String c EmptyString +:+ s).
  by rewrite escapeHTML_app, escapeHTML_char.
Qed.

Lemma escapeHTML_each (s : string) : escapeHTML s = escapeEach s.
Proof.
  induction s as [|c s IH]; [done|]. rewrite escapeHTML_cons, IH. done.
Qed.

Lemma allChars_app (P : ascii -> bool) (s1 s2 : string) :
  allChars P (s1 +:+ s2) = allChars P s1 && allChars P s2.
Proof.
  induction s1 as [|c s1 IH]; simpl; [done|]. by rewrite IH, andb_assoc.
Qed.

(** X14. The text [escapeHTML] returns never contains [<], [>], a double quote
    or a single quote, whatever the input; it equals the text obtained by
    replacing, in one pass, each of the five special characters by its
    entity. *)
Theorem escapeHTML_output_is_inert (str : string) :
  allChars (fun c => negb (isMarkup c)) (escapeHTML str) = true
  /\ escapeHTML str = escapeEach str.
Proof.
  split; [|apply escapeHTML_each].
  induction str as [|c s IH]; [done|].
  rewrite escapeHTML_cons, allChars_app, IH, andb_true_r.
  unfold entity. repeat case_decide; subst; try reflexivity.
  simpl. unfold isMarkup.
  repeat (rewrite bool_decide_eq_false_2 by done). done.
Qed.

(** X15. [escapeHTML] loses nothing: two different texts are escaped to two
    different texts. *)
Theorem escapeHTML_injective (s1 s2 : string) :
  escapeHTML s1 = escapeHTML s2 -> s1 = s2.
Proof.
  rewrite !escapeHTML_each. revert s2.
  induction s1 as [|x s1 IH]; intros [|y s2]; simpl.
  - done.
  - unfold entity. repeat case_decide; discriminate.
  - unfold entity. repeat case_decide; discriminate.
  - unfold entity.
    repeat case_decide; subst; simpl; intros Heq; simplify_eq;
      try done; f_equal; by apply IH.
Qed.

(** X16. [escapeHTML] works character by character: it distributes over
    concatenation, leaves a text without special characters as it is, and
    never shortens a text. *)
Theorem escapeHTML_is_local (s1 s2 : string) :
  escapeHTML (s1 +:+ s2) = escapeHTML s1 +:+ escapeHTML s2
  /\ (allChars (fun c => negb (isSpecial c)) s1 = true -> escapeHTML s1 = s1)
  /\ (String.length s1 <= String.length (escapeHTML s1))%nat.
Proof.
  split; [apply escapeHTML_app|]. split.
  - induction s1 as [|c s IH]; [done|]. simpl.
    intros [Hc Hs]%andb_true_iff. rewrite escapeHTML_cons, (IH Hs).
    unfold isSpecial in Hc. unfold entity.
    repeat case_decide; subst; try done.
  - induction s1 as [|c s IH]; [simpl; lia|].
    rewrite escapeHTML_cons, length_append.
    change (String.length (String c s)) with (S (String.length s)).
    assert (1 <= String.length (entity c))%nat; [|lia].
    unfold entity. repeat case_decide; simpl; lia.
Qed.

Lemma removeAll_clean (cls : ascii -> bool) (s : string) :
  allChars (fun c => negb (cls c)) (removeAll cls s) = true.
Proof.
  induction s as [|c s IH]; [done|]. simpl.
  destruct (cls c) eqn:E; simpl; [done|]. by rewrite E, IH.
Qed.

Lemma removeAll_id (cls : ascii -> bool) (s : string) :
  allChars (fun c => negb (cls c)) s = true -> removeAll cls s = s.
Proof.
  induction s as [|c s IH]; [done|]. simpl.
  intros [Hc Hs]%andb_true_iff. apply negb_true_iff in Hc.
  by rewrite Hc, (IH Hs).
Qed.

(** X17. No control character survives [sanitizeInput], so none reaches the
    shipping record of an order; on a text without control characters
    [sanitizeInput] is [trim]. *)
Theorem sanitizeInput_removes_controls
    (str : string) (e : SubmitEvent) (items : list CartItem.t) (subtotal : Z) :
  allChars (fun c => negb (isControl c)) (sanitizeInput str) = true
  /\ (allChars (fun c => negb (isControl c)) (trim str) = true ->
      sanitizeInput str = trim str)
  /\ (let shipping := Order.shipping (buildOrder e items subtotal) in
      Forall (fun field => allChars (fun c => negb (isControl c)) field = true)
        [ Shipping.name shipping; Shipping.address shipping;
          Shipping.city shipping; Shipping.zip shipping;
          Shipping.phone shipping ]).
Proof.
  split; [apply removeAll_clean|]. split; [apply removeAll_id|].
  simpl. repeat constructor; apply removeAll_clean.
Qed.

(** ** The hash *)

Lemma toInt32_range (n : Z) : - 2 ^ 31 <= toInt32 n < 2 ^ 31.
Proof.
  unfold toInt32.
  pose proof (Z.mod_pos_bound (n + 2 ^ 31) (2 ^ 32)). lia.
Qed.

Lemma toInt32_small (n : Z) : - 2 ^ 31 <= n < 2 ^ 31 -> toInt32 n = n.
Proof. intros Hn. unfold toInt32. rewrite Z.mod_small; lia. Qed.

Lemma lxor_below (a c : Z) :
  0 <= a < 2 ^ 31 -> 0 <= c < 2 ^ 31 -> 0 <= Z.lxor a c < 2 ^ 31.
Proof.
  intros Ha Hc.
  assert (0 <= Z.lxor a c) as Hnn by (apply Z.lxor_nonneg; lia).
  split; [done|].
  destruct (Z.eq_dec (Z.lxor a c) 0) as [->|Hne]; [lia|].
  apply Z.log2_lt_pow2; [lia|].
  pose proof (Z.log2_lxor a c ltac:(lia) ltac:(lia)) as Hlog.
  assert (Z.log2 a < 31).
  { destruct (Z.eq_dec a 0) as [->|]; [simpl; lia|].
    apply Z.log2_lt_pow2; lia. }
  assert (Z.log2 c < 31).
  { destruct (Z.eq_dec c 0) as [->|]; [simpl; lia|].
    apply Z.log2_lt_pow2; lia. }
  lia.
Qed.

Lemma lxor_int32 (a c : Z) :
  - 2 ^ 31 <= a < 2 ^ 31 -> 0 <= c < 2 ^ 31 ->
  - 2 ^ 31 <= Z.lxor a c < 2 ^ 31.
Proof.
  intros Ha Hc. destruct (Z_lt_le_dec a 0) as [Hneg|Hpos].
  - pose proof (lxor_below (Z.lnot a) c) as Hb.
    rewrite <- Z.lnot_lxor_l in Hb. unfold Z.lnot in Hb. lia.
  - pose proof (lxor_below a c). lia.
Qed.

Lemma charCode_range (c : ascii) : 0 <= charCode c < 256.
Proof.
  unfold charCode. pose proof (N_ascii_bounded c). lia.
Qed.

Lemma bitXor_range (hash : Z) (c : ascii) :
  - 2 ^ 31 <= bitXor hash (charCode c) < 2 ^ 31.
Proof.
  unfold bitXor. pose proof (charCode_range c).
  rewrite (toInt32_small (charCode c)) by lia.
  apply lxor_int32; [apply toInt32_range | lia].
Qed.

Lemma hashLoop_range (hash : Z) (str : string) :
  - 2 ^ 31 <= hash < 2 ^ 31 -> - 2 ^ 31 <= hashLoop hash str < 2 ^ 31.
Proof.
  revert hash. induction str as [|c str IH]; intros hash Hh; [done|].
  simpl. apply IH, bitXor_range.
Qed.

Lemma hashLoop_app (hash : Z) (s1 s2 : string) :
  hashLoop hash (s1 +:+ s2) = hashLoop (hashLoop hash s1) s2.
Proof.
  revert hash. induction s1 as [|c s1 IH]; intros hash; [done|].
  simpl. apply IH.
Qed.

(** X18. The value of [hash] after any number of loop iterations is a signed
    32-bit integer, so the product [hash * 33] the loop computes next is
    below 2^53 in absolute value (where JS multiplies exactly), and the
    number that [hashString] prints is an unsigned 32-bit integer. *)
Theorem hash_stays_in_32_bits (done_ rest : string) :
  let hash := hashLoop 5381 done_ in
  hashLoop 5381 (done_ +:+ rest) = hashLoop hash rest
  /\ - 2 ^ 31 <= hash < 2 ^ 31
  /\ - 2 ^ 53 < hash * 33 < 2 ^ 53
  /\ 0 <= toUint32 (hashLoop 5381 (done_ +:+ rest)) < 2 ^ 32.
Proof.
  cbv zeta. split; [apply hashLoop_app|].
  pose proof (hashLoop_range 5381 done_ ltac:(lia)) as Hr.
  split; [done|]. split; [lia|].
  unfold toUint32. apply Z.mod_pos_bound. lia.
Qed.

Lemma string_of_uint_hex (d : Hexadecimal.uint) :
  allChars isHexDigit (NilEmpty.string_of_uint d) = true.
Proof. induction d; simpl; try done. Qed.

(** X19. A digest is a non-empty text of lower-case hexadecimal digits. *)
Theorem hashString_is_hex (str : string) :
  allChars isHexDigit (hashString str) = true
  /\ truthy (hashString str) = true.
Proof.
  split; [|apply toString16_truthy].
  unfold hashString, toString16.
  assert (0 <= toUint32 (hashLoop 5381 str)) as Hnn.
  { unfold toUint32. apply Z.mod_pos_bound. lia. }
  destruct (Z.ltb_spec (toUint32 (hashLoop 5381 str)) 0); [lia|].
  unfold NilZero.string_of_uint.
  destruct (N.to_hex_uint _) eqn:E; try done; rewrite <- E at 1;
    rewrite E; apply (string_of_uint_hex _).
Qed.

(** X20. The digest does not tell all passwords apart: "a6" and "gp" have the
    same digest, so an account registered with one of them is opened by
    the other. *)
Theorem colliding_password_logs_in (email : string) (st st1 : App) :
  registerUser email "a6" st = (Normal tt, st1) ->
  hashString "a6" = hashString "gp"
  /\ exists st2,
       loginUser email "gp" st1 = (Normal tt, st2)
       /\ currentUser st2 = Some (normalize email).
Proof.
  intros Hreg. split; [reflexivity|].
  rewrite loginUser_run, (registerUser_stores _ _ _ _ Hreg). simpl.
  rewrite setCurrentUser_run. by eexists.
Qed.

(** ** Edge cases of the authentication forms *)

(** X21. A failed login or registration only shows the error: the state is the
    one before, with the notice added; in particular the identity that was
    logged in stays logged in and no record is changed. *)
Theorem failed_auth_only_notifies (email password : string) (st : App) :
  (forall user, users st !! normalize email = Some user ->
     exec (registerForm_submit email password) st
     = push_alert "User already exists" st)
  /\ (users st !! normalize email = None
      \/ (exists user, users st !! normalize email = Some user
                       /\ User.passwordHash user <> hashString password) ->
      exec (loginForm_submit email password) st
      = push_alert "Invalid credentials" st).
Proof.
  split.
  - intros user Hk. unfold exec.
    by rewrite registerForm_submit_run, registerUser_run, Hk.
  - intros Hcase. unfold exec. rewrite loginForm_submit_run, loginUser_run.
    destruct Hcase as [->|(user & -> & Hne)]; [done|].
    by rewrite bool_decide_eq_false_2.
Qed.

(** X22. An email made of white space only is accepted by registration: the
    record is stored under the empty key and the identity becomes the empty
    string, which every later test treats as "nobody logged in": no orders
    are shown and checkout asks to log in. *)
Theorem blank_email_registers_nobody
    (email password : string) (e : SubmitEvent) (st : App) :
  normalize email = "" -> users st !! "" = None ->
  let st' := exec (registerForm_submit email password) st in
  users st' !! "" = Some (User.mk (hashString password))
  /\ currentUser st' = Some ""
  /\ loadOrders st' = (Normal [], st')
  /\ exec (checkoutForm_submit e) st'
     = push_alert "Please login before placing an order." st'.
Proof.
  intros Hn Hk. cbv zeta.
  assert (exec (registerForm_submit email password) st
          = set_localStorage (insert USER (JSON_stringify (Some "")))
              (set_currentUser (Some "")
                 (set_localStorage
                    (insert USERS
                       (JSON_stringify (<["" := User.mk (hashString password)]> (users st))))
                    (set_users (insert "" (User.mk (hashString password))) st))))
    as ->.
  { unfold exec. rewrite registerForm_submit_run, registerUser_run, Hn, Hk.
    done. }
  split; [apply lookup_insert_eq|]. split; [done|]. split.
  - by rewrite loadOrders_run.
  - unfold exec. by rewrite checkoutForm_submit_run.
Qed.

(** ** The product filter *)

Lemma catalog_prices : Forall (fun p => 799 <= Product.price p <= 6999) PRODUCTS.
Proof. unfold PRODUCTS. repeat constructor; simpl; lia. Qed.

Lemma filter_sublist_impl {A} (P Q : A -> bool) (l : list A) :
  (forall x, P x = true -> Q x = true) ->
  List.filter P l `sublist_of` List.filter Q l.
Proof.
  intros HPQ. induction l as [|x l IH]; simpl; [constructor|].
  destruct (P x) eqn:EP.
  - rewrite (HPQ x EP). by constructor.
  - destruct (Q x); [by constructor | done].
Qed.

Lemma filter_sublist_self {A} (P : A -> bool) (l : list A) :
  List.filter P l `sublist_of` l.
Proof.
  induction l as [|x l IH]; simpl; [constructor|].
  destruct (P x); by constructor.
Qed.

(** X23. A price field that is blank, zero or not a number sets no limit: the
    products shown are then exactly the catalog products of the active
    category that match the search, in catalog order.  In particular a
    maximum price of 0 hides nothing, and with category "all" and a blank
    search the whole catalog is shown. *)
Theorem blank_price_fields_set_no_limit (cat search : string) (lo hi : option Z) :
  lo = None \/ lo = Some 0 -> hi = None \/ hi = Some 0 ->
  let query := toLowerCase (trim search) in
  visibleProducts (mkFilters cat lo hi search)
  = List.filter
      (fun p =>
         (bool_decide (cat = "all") || bool_decide (Product.category p = cat))
         && (negb (truthy query) || includes (toLowerCase (Product.name p)) query))
      PRODUCTS
  /\ (cat = "all" -> query = "" ->
      visibleProducts (mkFilters cat lo hi search) = PRODUCTS).
Proof.
  intros Hlo Hhi. cbv zeta.
  assert (orNumber lo 0 = 0) as Hmin by (by destruct Hlo as [->| ->]).
  assert (orNumber hi MAX_SAFE_INTEGER = MAX_SAFE_INTEGER) as Hmax
    by (by destruct Hhi as [->| ->]).
  assert (forall p, p ∈ PRODUCTS ->
            (Product.price p <? 0) || (MAX_SAFE_INTEGER <? Product.price p) = false)
    as Hprice.
  { intros p Hp. pose proof catalog_prices as Hall.
    rewrite Forall_forall in Hall. specialize (Hall p Hp).
    unfold MAX_SAFE_INTEGER. apply orb_false_iff. split; apply Z.ltb_ge; lia. }
  split.
  - unfold visibleProducts.
    cbn [activeCategory filterMinPrice filterMaxPrice filterSearch].
    rewrite Hmin, Hmax.
    apply List.filter_ext_in. intros p Hp%list_elem_of_In.
    rewrite (Hprice p Hp).
    destruct (bool_decide (cat = "all")), (bool_decide (Product.category p = cat));
      simpl; try done;
      by destruct (truthy _), (includes _ _).
  - intros -> Hq. unfold visibleProducts.
    cbn [activeCategory filterMinPrice filterMaxPrice filterSearch].
    rewrite Hmin, Hmax, Hq.
    rewrite <- (List.filter_ext_in (fun _ => true)).
    + generalize PRODUCTS. intros l.
      induction l as [|p l IH]; simpl; [done|]. by rewrite IH.
    + intros p Hp%list_elem_of_In. by rewrite (Hprice p Hp).
Qed.

(** X24. Narrowing the price interval only hides products: what is shown for the
    narrower interval is a sub-list of what was shown before, which is a
    sub-list of the catalog, in catalog order. *)
Theorem narrowing_prices_only_hides (f f' : Filters) :
  activeCategory f' = activeCategory f -> filterSearch f' = filterSearch f ->
  orNumber (filterMinPrice f) 0 <= orNumber (filterMinPrice f') 0 ->
  orNumber (filterMaxPrice f') MAX_SAFE_INTEGER
  <= orNumber (filterMaxPrice f) MAX_SAFE_INTEGER ->
  visibleProducts f' `sublist_of` visibleProducts f
  /\ visibleProducts f `sublist_of` PRODUCTS.
Proof.
  intros Hcat Hsearch Hmin Hmax. split; [|apply filter_sublist_self].
  unfold visibleProducts. rewrite Hcat, Hsearch.
  apply filter_sublist_impl. intros p.
  destruct (negb (bool_decide (activeCategory f = "all"))
            && negb (bool_decide (Product.category p = activeCategory f)));
    [done|].
  destruct (Z.ltb_spec (Product.price p) (orNumber (filterMinPrice f') 0));
    [done|].
  destruct (Z.ltb_spec (orNumber (filterMaxPrice f') MAX_SAFE_INTEGER) (Product.price p));
    [done|]. simpl.
  destruct (Z.ltb_spec (Product.price p) (orNumber (filterMinPrice f) 0)); [lia|].
  destruct (Z.ltb_spec (orNumber (filterMaxPrice f) MAX_SAFE_INTEGER) (Product.price p));
    [lia|]. done.
Qed.

(** ** The cart along the life of the page *)

Lemma sum_positive (l : list Z) :
  Forall (fun q => 0 < q) l -> 0 <= sumZ l /\ (sumZ l = 0 -> l = []).
Proof.
  induction 1 as [|q l Hq _ [IH _]]; [done|].
  rewrite sumZ_cons. split; lia.
Qed.

(** X25. From a cart of positive quantities, every sequence of page events
    (adding, changing quantities, checking out, logging in and out) leads
    to a cart of positive quantities; the badge count is then never
    negative and is 0 exactly when the cart is empty. *)
Theorem cart_stays_positive_along_events (evs : list Event) (st : App) :
  cart_ok (cart st) ->
  let st' := run evs st in
  cart_ok (cart st')
  /\ 0 <= cartCount st'
  /\ (cartCount st' = 0 <-> cart st' = ∅).
Proof.
  intros Hok. cbv zeta.
  pose proof (run_cart_ok evs st Hok) as Hok'.
  split; [done|]. rewrite cartCount_sum.
  assert (Forall (fun q => 0 < q) (snd <$> map_to_list (cart (run evs st)))) as Hall.
  { apply Forall_fmap, Forall_forall. intros [k q] Hin%elem_of_map_to_list.
    apply (Hok' _ _ Hin). }
  destruct (sum_positive _ Hall) as [Hnn Hzero]. split; [done|]. split.
  - intros Hz%Hzero. apply fmap_nil_inv in Hz.
    by apply map_to_list_empty_iff.
  - intros ->. by rewrite map_to_list_empty.
Qed.

End Further.

(** * The statements on the sample runs *)

Import Sample.

#[local] Existing Instances currentUser_JSON users_JSON cart_JSON orders_JSON.

(** Ann's submission of the valid form empties the cart and leaves her with
    one order of total 9997; the invalid form writes nothing. *)
Lemma checkout_submission_on_sample :
  let st' := exec (checkoutForm_submit valid_form) shopper in
  cart st' = ∅
  /\ (exists order, loadOrders st' = (Normal [order], st') /\ Order.total order = 9997)
  /\ localStorage (exec (checkoutForm_submit invalid_form) shopper)
     = localStorage shopper.
Proof.
  destruct (checkout_submission valid_form shopper) as (_ & Hok & _).
  destruct (checkout_submission invalid_form shopper) as (_ & _ & Hrej).
  destruct Hok as (u & Hu & _ & Hcart & Hload);
    [reflexivity | reflexivity | reflexivity | reflexivity
    | vm_compute; discriminate |].
  vm_compute in Hu. injection Hu as <-.
  split; [exact Hcart|]. split.
  - eexists. split.
    + apply Hload; vm_compute; reflexivity.
    + reflexivity.
  - apply Hrej. right; right; right; left. reflexivity.
Defined.


(** The fresh token is not compared with the old one: when the platform
    draws the same words again, the order is placed and the expected token
    after the submission is the one that was just consumed; it validates
    once more, and a second order is placed with it. *)
Lemma fresh_token_may_repeat :
  let st1 := exec (checkoutForm_submit same_draw_form) shopper in
  let mid := run [ProductGridClick "p1"] st1 in
  let st2 := exec (checkoutForm_submit valid_form) mid in
  csrfInput shopper = csrfToken shopper
  /\ head (alerts st1) = Some "Payment successful (dummy). Order placed!"
  /\ csrfToken st1 = csrfToken shopper
  /\ csrfInput st1 = csrfToken shopper
  /\ head (alerts st2) = Some "Payment successful (dummy). Order placed!"
  /\ loadOrders st2
     = (Normal
          [ buildOrder valid_form (cartTotals mid).1 (cartTotals mid).2;
            buildOrder same_draw_form (cartTotals shopper).1 (cartTotals shopper).2 ],
        st2).
Proof.
  cbv zeta. do 5 (split; [vm_compute; reflexivity|]).
  vm_compute. reflexivity.
Qed.


Lemma cart_quantities_stay_positive_on_sample :
  cart_ok
    (cart (callAll [ AddItem "p9"; UpdateItem "p1" (-2); UpdateItem "p4" 3;
                     UpdateItem "p9" (-1); AddItem "p1" ] shopper)).
Proof.
  apply (cart_quantities_stay_positive _ shopper).
  unfold cart_ok. apply (bool_decide_unpack _). vm_compute. reflexivity.
Defined.

(** On Ann's cart (two p1, one p4): taking two p1 away removes the entry
    and leaves p4; taking one away stores 1; an id that is not in the cart
    changes nothing. *)
Lemma updateCartItem_semantics_on_sample :
  cart_ok (cart shopper)
  /\ cart shopper !! "p1" = Some 2
  /\ cart (exec (updateCartItem "p1" (-2)) shopper) !! "p1" = None
  /\ cart (exec (updateCartItem "p1" (-2)) shopper) !! "p4" = Some 1
  /\ cart (exec (updateCartItem "p1" (-1)) shopper) !! "p1" = Some 1
  /\ exec (updateCartItem "p9" 5) shopper = shopper.
Proof.
  assert (cart_ok (cart shopper)) as Hok.
  { unfold cart_ok. apply (bool_decide_unpack _). vm_compute. reflexivity. }
  destruct (updateCartItem_semantics "p1" (-2) shopper Hok) as (_ & Hq & Hp1).
  destruct (updateCartItem_semantics "p1" (-1) shopper Hok) as (_ & Hq' & _).
  destruct (updateCartItem_semantics "p9" 5 shopper Hok) as (Habsent & _ & _).
  split; [exact Hok|]. split; [reflexivity|]. split; [|split; [|split]].
  - apply Hp1. reflexivity.
  - rewrite (Hq 2) by reflexivity. reflexivity.
  - rewrite (Hq' 2) by reflexivity. reflexivity.
  - apply Habsent. reflexivity.
Defined.

Lemma register_login_round_trip_on_sample :
  let st1 := exec (registerUser " Ann@Shop.io " "secret") fresh in
  (exists st3,
     loginUser "ANN@shop.io  " "secret"
       (run [ BtnLogoutClick true; RegisterFormSubmit "bob@shop.io" "pw" ] st1)
     = (Normal tt, st3)
     /\ currentUser st3 = Some "ann@shop.io")
  /\ loginUser "ann@shop.io" "Secret" st1
     = (Throw (Error "Invalid credentials"), st1)
  /\ loginUser "bob@shop.io" "secret" st1
     = (Throw (Error "Invalid credentials"), st1).
Proof.
  destruct register_login_round_trip as (Hok & Hwrong & Hunknown).
  cbv zeta. split; [|split].
  - destruct (Hok "ANN@shop.io  " "secret" fresh
                (exec (registerUser " Ann@Shop.io " "secret") fresh)
                [ BtnLogoutClick true; RegisterFormSubmit "bob@shop.io" "pw" ])
      as (st3 & Hlogin & Hcu & _); [vm_compute; reflexivity|].
    exists st3. split; [apply Hlogin | apply Hcu].
  - apply (Hwrong _ _ _ (User.mk (hashString "secret")));
      [vm_compute; reflexivity | vm_compute; discriminate].
  - apply Hunknown. vm_compute. reflexivity.
Defined.

Lemma duplicate_registration_fails_on_sample :
  let later :=
    run [ BtnLogoutClick true; ProductGridClick "p2";
          LoginFormSubmit "ann@shop.io" "secret" ]
      (exec (registerUser " Ann@Shop.io " "secret") fresh) in
  registerUser "ANN@SHOP.IO" "other" later
  = (Throw (Error "User already exists"), later).
Proof.
  apply (duplicate_registration_fails " Ann@Shop.io " "secret" "ANN@SHOP.IO"
           "other" fresh); reflexivity.
Defined.

Lemma cartTotals_correct_on_sample :
  (cartTotals shopper).2 = 9997
  /\ NoDup (CartItem.id <$> (cartTotals shopper).1).
Proof.
  destruct (cartTotals_correct shopper) as (_ & Hnd & _ & _ & Hex).
  split; [|exact Hnd]. apply Hex. vm_compute. reflexivity.
Defined.

Lemma storage_round_trip_on_sample :
  (let st1 := exec (saveState CART ({[ "p1" := 2 ]} : gmap string Z)) fresh in
   loadState CART (∅ : gmap string Z) st1 = (Normal {[ "p1" := 2 ]}, st1))
  /\ loadState CART (∅ : gmap string Z) fresh = (Normal ∅, fresh)
  /\ loadState CART (∅ : gmap string Z)
       (set_localStorage (insert CART "{oops") fresh)
     = (Normal ∅, set_localStorage (insert CART "{oops") fresh).
Proof.
  destruct (storage_round_trip CART ({[ "p1" := 2 ]} : gmap string Z) ∅ fresh)
    as (Hrt & Habsent & _).
  destruct (storage_round_trip CART (∅ : gmap string Z) ∅
              (set_localStorage (insert CART "{oops") fresh))
    as (_ & Hbad & _).
  split; [|split].
  - apply Hrt. vm_compute. reflexivity.
  - apply Habsent. left. reflexivity.
  - apply Hbad. right. exists "{oops", SyntaxError. split; reflexivity.
Defined.

Lemma auth_errors_are_atomic_on_sample :
  (registerUser "ann@shop.io" "again" shopper
   = (Throw (Error "User already exists"), shopper))
  /\ (loginUser "ann@shop.io" "wrong" shopper
      = (Throw (Error "Invalid credentials"), shopper)).
Proof.
  destruct (auth_errors_are_atomic "ann@shop.io" "again" shopper
              (exec (registerUser "ann@shop.io" "again") shopper)
              (Error "User already exists")) as (Hreg & _).
  destruct (auth_errors_are_atomic "ann@shop.io" "wrong" shopper
              (exec (loginUser "ann@shop.io" "wrong") shopper)
              (Error "Invalid credentials")) as (_ & Hlog).
  destruct Hreg as (_ & Hst & _); [vm_compute; reflexivity|].
  destruct Hlog as (_ & Hst' & _); [vm_compute; reflexivity|].
  split.
  - rewrite <- Hst at 2. vm_compute. reflexivity.
  - rewrite <- Hst' at 2. vm_compute. reflexivity.
Defined.

Lemma recorded_order_is_consistent_on_sample :
  let order := buildOrder valid_form (cartTotals shopper).1 (cartTotals shopper).2 in
  Order.total order = 3999 * 2 + 1999 * 1
  /\ OrderItem.mk "p4" "Premium Hoodie" 1 1999 ∈ Order.items order.
Proof.
  destruct (recorded_order_is_consistent valid_form shopper)
    as (_ & Htotal & _ & Hall & _);
    [reflexivity | reflexivity | reflexivity | reflexivity
    | vm_compute; discriminate |].
  split.
  - rewrite Htotal. reflexivity.
  - apply (Hall (Product.mk "p4" "Premium Hoodie" "fashion" 1999) 1).
    + apply list_elem_of_In. simpl. tauto.
    + vm_compute. reflexivity.
Defined.

(** * The further statements on the sample runs *)


Lemma saveState_last_write_wins_on_sample :
  let st2 :=
    exec (saveState CART ({[ "p1" := 2 ]} : gmap string Z))
      (exec (saveState CART ({[ "p9" := 7 ]} : gmap string Z)) shopper) in
  loadState CART (∅ : gmap string Z) st2 = (Normal {[ "p1" := 2 ]}, st2)
  /\ loadState USERS (∅ : gmap string User.t) st2
     = (Normal (stored USERS (∅ : gmap string User.t) shopper), st2).
Proof.
  destruct (saveState_last_write_wins CART USERS
              ({[ "p9" := 7 ]} : gmap string Z) {[ "p1" := 2 ]} ∅
              (∅ : gmap string User.t) shopper) as (_ & Hlast & Hother).
  split.
  - apply Hlast. vm_compute. reflexivity.
  - apply Hother. discriminate.
Defined.

Lemma form_field_carries_token_on_sample :
  let st :=
    run [ ProductGridClick "p2"; BtnCheckoutClick [30; 31; 32; 33];
          CheckoutFormSubmit invalid_form; BtnLogoutClick true ]
      shopper in
  csrfInput st = csrfToken st /\ truthy (csrfToken st) = true.
Proof.
  destruct (form_field_carries_token
              [ ProductGridClick "p2"; BtnCheckoutClick [30; 31; 32; 33];
                CheckoutFormSubmit invalid_form; BtnLogoutClick true ]
              valid_form shopper) as (Heq & Htok & _).
  - vm_compute. reflexivity.
  - vm_compute. reflexivity.
  - repeat constructor; simpl; discriminate.
  - split; [exact Heq | exact Htok].
Defined.

Lemma reload_restores_session_on_sample :
  let st :=
    run [ RegisterFormSubmit " Ann@Shop.io " "secret"; ProductGridClick "p1";
          ProductGridClick "p4"; CartItemsClick "p4" false; BtnLogoutClick true ]
      (page ∅ [1; 2; 3; 4]) in
  cart (page (localStorage st) [5; 6; 7; 8]) = cart st
  /\ users (page (localStorage st) [5; 6; 7; 8]) = users st
  /\ currentUser (page (localStorage st) [5; 6; 7; 8]) = currentUser st.
Proof.
  destruct (reload_restores_session ∅ [1; 2; 3; 4] [5; 6; 7; 8]
              [ RegisterFormSubmit " Ann@Shop.io " "secret"; ProductGridClick "p1";
                ProductGridClick "p4"; CartItemsClick "p4" false;
                BtnLogoutClick true ]) as (Hcu & Hus & Hc & _).
  - vm_compute. repeat split.
  - split; [exact Hc | split; [exact Hus | exact Hcu]].
Defined.

Lemma orders_need_identity_on_sample :
  loadOrders fresh = (Normal [], fresh).
Proof.
  destruct (orders_need_identity fresh
              (buildOrder valid_form (cartTotals shopper).1 (cartTotals shopper).2))
    as [Hload _]; [vm_compute; reflexivity|].
  exact Hload.
Defined.

Lemma cart_is_shared_between_users_on_sample :
  cart (run [ BtnLogoutClick true; RegisterFormSubmit "bob@shop.io" "pw" ] shopper)
  = cart shopper.
Proof.
  apply (cart_is_shared_between_users
           [ BtnLogoutClick true; RegisterFormSubmit "bob@shop.io" "pw" ] shopper).
  repeat constructor.
Defined.

Lemma orders_survive_logout_on_sample :
  let st := exec (checkoutForm_submit valid_form) shopper in
  let st2 := exec (loginUser "Ann@shop.io" "secret") (exec logoutUser st) in
  loadOrders st2
  = (Normal [buildOrder valid_form (cartTotals shopper).1 (cartTotals shopper).2],
     st2).
Proof.
  cbv zeta.
  apply (orders_survive_logout
           (exec (checkoutForm_submit valid_form) shopper) _ "ann@shop.io"
           "Ann@shop.io" "secret").
  - vm_compute. reflexivity.
  - vm_compute. reflexivity.
  - vm_compute. reflexivity.
  - vm_compute. reflexivity.
Defined.

Lemma orders_are_per_user_on_sample :
  let st := exec (registerUser "bob@shop.io" "pw") shopper in
  let st2 := exec (loginUser "bob@shop.io" "pw") (exec (checkoutForm_submit valid_form) st) in
  loadOrders st2 = (Normal [], st2).
Proof.
  cbv zeta.
  pose proof (orders_are_per_user valid_form
                (exec (registerUser "bob@shop.io" "pw") shopper)
                (exec (loginUser "bob@shop.io" "pw")
                   (exec (checkoutForm_submit valid_form)
                      (exec (registerUser "bob@shop.io" "pw") shopper)))
                "ann@shop.io" "bob@shop.io" "pw") as Hothers.
  cbv zeta in Hothers. rewrite Hothers.
  - vm_compute. reflexivity.
  - vm_compute. reflexivity.
  - vm_compute. reflexivity.
  - vm_compute. reflexivity.
  - vm_compute. reflexivity.
  - vm_compute. reflexivity.
  - vm_compute. discriminate.
  - vm_compute. reflexivity.
  - vm_compute. discriminate.
  - vm_compute. reflexivity.
Defined.

Lemma double_submit_records_once_on_sample :
  let st1 := exec (checkoutForm_submit valid_form) shopper in
  localStorage (exec (checkoutForm_submit valid_form) st1) = localStorage st1.
Proof.
  destruct (double_submit_records_once valid_form valid_form shopper)
    as (_ & Hls & _);
    [vm_compute; reflexivity | vm_compute; reflexivity | vm_compute; reflexivity
    | reflexivity | vm_compute; discriminate |].
  exact Hls.
Defined.

Lemma addToCart_raises_totals_on_sample :
  (cartTotals (exec (addToCart "p2") shopper)).2 = (cartTotals shopper).2 + 5499.
Proof.
  destruct (addToCart_raises_totals "p2" shopper) as (_ & _ & Hprice).
  apply (Hprice (Product.mk "p2" "Mechanical Keyboard" "electronics" 5499)).
  - apply list_elem_of_In. simpl. tauto.
  - reflexivity.
Defined.

Lemma decrement_undoes_add_on_sample :
  cart (exec (updateCartItem "p4" (-1)) (exec (addToCart "p4") shopper))
  = cart shopper.
Proof.
  destruct (decrement_undoes_add "p4" shopper) as [Hc _]; [|exact Hc].
  unfold cart_ok. apply (bool_decide_unpack _). vm_compute. reflexivity.
Defined.

Lemma updateCartItem_composes_on_sample :
  exec (updateCartItem "p1" (-4)) (exec (updateCartItem "p1" 3) shopper)
  = exec (updateCartItem "p1" (3 + -4)) shopper.
Proof.
  apply (updateCartItem_composes "p1" 3 (-4) 2 shopper).
  - vm_compute. reflexivity.
  - discriminate.
  - reflexivity.
Defined.

Lemma totals_are_positive_on_sample : 0 < (cartTotals shopper).2.
Proof.
  destruct (totals_are_positive valid_form shopper) as (_ & Hsub & _).
  - unfold cart_ok. apply (bool_decide_unpack _). vm_compute. reflexivity.
  - vm_compute. discriminate.
  - exact Hsub.
Defined.

Lemma escapeHTML_injective_on_sample :
  escapeHTML "<b>" = "&lt;b&gt;" /\ "<b>" = "<b>".
Proof.
  split; [reflexivity|].
  apply (escapeHTML_injective "<b>" "<b>"). reflexivity.
Defined.

Lemma escapeHTML_is_local_on_sample : escapeHTML "Table Lamp" = "Table Lamp".
Proof.
  destruct (escapeHTML_is_local "Table Lamp" "") as (_ & Hplain & _).
  apply Hplain. reflexivity.
Defined.

Lemma sanitizeInput_removes_controls_on_sample :
  sanitizeInput " Ann Lee " = "Ann Lee".
Proof.
  destruct (sanitizeInput_removes_controls " Ann Lee " valid_form [] 0)
    as (_ & Htrim & _).
  rewrite Htrim; reflexivity.
Defined.

Lemma colliding_password_logs_in_on_sample :
  exists st2,
    loginUser "x@y.z" "gp" (exec (registerUser "x@y.z" "a6") fresh) = (Normal tt, st2)
    /\ currentUser st2 = Some "x@y.z".
Proof.
  destruct (colliding_password_logs_in "x@y.z" fresh
              (exec (registerUser "x@y.z" "a6") fresh)) as (_ & st2 & Hlogin & Hcu).
  - vm_compute. reflexivity.
  - exists st2. split; [exact Hlogin | exact Hcu].
Defined.

Lemma failed_auth_only_notifies_on_sample :
  exec (registerForm_submit "ANN@shop.io" "other") shopper
  = push_alert "User already exists" shopper
  /\ exec (loginForm_submit "ann@shop.io" "wrong") shopper
     = push_alert "Invalid credentials" shopper.
Proof.
  destruct (failed_auth_only_notifies "ANN@shop.io" "other" shopper) as (Hreg & _).
  destruct (failed_auth_only_notifies "ann@shop.io" "wrong" shopper) as (_ & Hlog).
  split.
  - apply (Hreg (User.mk (hashString "secret"))). vm_compute. reflexivity.
  - apply Hlog. right. exists (User.mk (hashString "secret")).
    split; [vm_compute; reflexivity | vm_compute; discriminate].
Defined.

Lemma blank_email_registers_nobody_on_sample :
  let st' := exec (registerForm_submit "   " "pw") fresh in
  currentUser st' = Some "" /\ loadOrders st' = (Normal [], st').
Proof.
  destruct (blank_email_registers_nobody "   " "pw" valid_form fresh)
    as (_ & Hcu & Hload & _);
    [reflexivity | vm_compute; reflexivity |].
  split; [exact Hcu | exact Hload].
Defined.

Lemma blank_price_fields_set_no_limit_on_sample :
  visibleProducts (mkFilters "all" None (Some 0) "  ") = PRODUCTS.
Proof.
  destruct (blank_price_fields_set_no_limit "all" "  " None (Some 0))
    as (_ & Hall); [by left | by right |].
  apply Hall; reflexivity.
Defined.

Lemma narrowing_prices_only_hides_on_sample :
  visibleProducts (mkFilters "home" (Some 1000) (Some 3000) "")
  `sublist_of` visibleProducts (mkFilters "home" None None "").
Proof.
  destruct (narrowing_prices_only_hides (mkFilters "home" None None "")
              (mkFilters "home" (Some 1000) (Some 3000) "")) as [Hsub _];
    [reflexivity | reflexivity | vm_compute; discriminate
    | vm_compute; discriminate |].
  exact Hsub.
Defined.

Lemma cart_stays_positive_along_events_on_sample :
  cart_ok
    (cart (run [ CartItemsClick "p4" false; ProductGridClick "p7";
                 CheckoutFormSubmit valid_form; ProductGridClick "p2" ] shopper)).
Proof.
  destruct (cart_stays_positive_along_events
              [ CartItemsClick "p4" false; ProductGridClick "p7";
                CheckoutFormSubmit valid_form; ProductGridClick "p2" ] shopper)
    as (Hok & _); [|exact Hok].
  unfold cart_ok. apply (bool_decide_unpack _). vm_compute. reflexivity.
Defined.
